(** * mboard: the personalised trust-rank engine of [mboard/views.py]

    A shallow embedding of the rank pipeline ([refresh_rank], [calc_rep]),
    the annotation and listing queries ([multi_annotate], [list_threads],
    [get_thread]) and the voting endpoint ([post_vote]), together with the
    properties the specification states about them.

    Conventions of the embedding:
    - a database table with a primary key or a one-row-per-key discipline is
      a finite map from that key to the remaining columns;
    - model instances used as graph nodes compare by model class and primary
      key, which is what the constructors of [Node] record;
    - ranks are binary64 floats in the program; they are only ever stored,
      compared and ordered by the code below, never computed with, so each
      is represented by the rational number it denotes (NaN is outside the
      model);
    - points in time are integers counting microseconds;
    - a string is the sequence of the bytes of its UTF-8 encoding, so a
      string is ASCII exactly when every byte is below 128;
    - integers are unbounded, as Python's are; the range of an integer
      column of the database backend is outside the model. *)

From Stdlib Require Import ZArith QArith Ascii DecimalString DecimalPos Lia.
From stdpp Require Import base option list gmap strings sorting.

Open Scope Z_scope.

(** ** Module-level constants (views.py, lines 23-40) *)

Definition POST_TO_USER_VOTE : Z := 77777.
Definition MINIMAL_AUTHOR_VOTE : Z := 1.
Definition NEGATIVE_VOTE_AMPLIFICATION_COEFFICIENT : Z := 10.

(** The float literal [-0.01]: the binary64 number nearest to -1/100 is
    -5764607523034235 / 2^59. *)
Definition SHADOWBAN_THRESHOLD : Q := (-5764607523034235 # 576460752303423488)%Q.

(** [timedelta(hours=1)], in microseconds. *)
Definition timedelta_hours (h : Z) : Z := h * 3600 * 1000000.

(** ** Rational comparisons as booleans *)

Definition Qltb (x y : Q) : bool := negb (Qle_bool y x).

(** ** Graph nodes and the [networkx.DiGraph] operations that are used *)

(** A node is a [Session] instance or a [Post] instance. Django compares
    model instances by concrete class and primary key. *)
Inductive Node :=
  | Actor (session_key : string)
  | Content (pk : Z).

#[global] Instance Node_eq_dec : EqDecision Node.
Proof. solve_decision. Defined.

#[global] Instance Node_countable : Countable Node.
Proof.
  refine (inj_countable'
            (λ n, match n with Actor k => inl k | Content p => inr p end)
            (λ s, match s with inl k => Actor k | inr p => Content p end) _).
  by intros [].
Defined.

(** [nodes] is the node dictionary in insertion order; [adj] maps an edge
    to its [weight] attribute. *)
Record DiGraph := {
  nodes : list Node;
  adj : gmap (Node * Node) Z
}.

Definition empty_graph : DiGraph := {| nodes := []; adj := ∅ |}.

Definition add_node (n : Node) (G : DiGraph) : DiGraph :=
  if decide (n ∈ nodes G) then G
  else {| nodes := nodes G ++ [n]; adj := adj G |}.

(** [G.add_edge(u, v, weight=w)]: both endpoints become nodes, and the
    weight of an edge that is already there is replaced. *)
Definition add_edge (u v : Node) (weight : Z) (G : DiGraph) : DiGraph :=
  let G' := add_node v (add_node u G) in
  {| nodes := nodes G'; adj := <[(u, v) := weight]> (adj G') |}.

(** ** The tables *)

Record Post := {
  session : string;        (* the creator's session key *)
  thread : option Z;       (* [None] for the opening post of a thread *)
  board : string
}.

Record Rating := {
  rank : Q;
  vote : Z
}.

(** Modelled from the spec: [mboard/models.py] is absent, so the column
    defaults of [Rating] are taken from the specification: a RankEntry is
    created "with vote=0 if absent" and a rank is "0 if uncomputed". *)
Definition RATING_VOTE_DEFAULT : Z := 0.
Definition RATING_RANK_DEFAULT : Q := 0%Q.

(** Modelled from the spec: [CalcTime.rank_calc_time] of a row made by
    [get_or_create]; the specification gives no default. The row is created
    at the current time, and the value is overwritten before the request
    that created the row returns. *)
Definition CALCTIME_DEFAULT (now : Z) : Z := now.

(** [Rating] holds at most one row per (user, target) pair and [CalcTime]
    one row per user: every row is made by [get_or_create] or
    [update_or_create] on that key. *)
Record DB := {
  sessions : gset string;
  boards : gset string;
  posts : gmap Z Post;
  ratings : gmap (string * Z) Rating;
  calctimes : gmap string Z
}.

(** ** Building the graph (views.py, lines 54-68) *)

Definition amplify (v : Z) : Z :=
  if decide (0 <= v) then v else v * NEGATIVE_VOTE_AMPLIFICATION_COEFFICIENT.

(** Body of the loop over [Post.objects.all()]. *)
Definition add_post_edges (pk : Z) (node : Post) (G : DiGraph) : DiGraph :=
  add_edge (Actor (session node)) (Content pk) MINIMAL_AUTHOR_VOTE
    (add_edge (Content pk) (Actor (session node)) POST_TO_USER_VOTE G).

(** Body of the loop over [Rating.objects.all()]. *)
Definition add_rating_edge (key : string * Z) (node : Rating) (G : DiGraph) : DiGraph :=
  add_edge (Actor key.1) (Content key.2) (amplify (vote node)) G.

Definition build_graph (db : DB) : DiGraph :=
  map_fold add_rating_edge
    (map_fold add_post_edges empty_graph (posts db))
    (ratings db).

(** ** Requests, settings and outcomes *)

(** [session_key] is [request.session.session_key]; [new_session_key] is the
    key that [request.session.create()] draws when it is called; [GET] holds
    the query parameters. *)
Record Request := {
  session_key : option string;
  new_session_key : string;
  GET : gmap string string
}.

Record Settings := {
  RANK_DEBUG : bool
}.

Inductive Exn :=
  | MultiValueDictKeyError
  | ValueError
  | DoesNotExist.

(** ** [int(str)]

    On an ASCII string: the blanks around the literal are skipped (space,
    tab, line feed, vertical tab, form feed, carriage return, and no other
    character), one sign is allowed, decimal digits may be separated by
    single underscores, and a literal of more than 4300 digits is refused
    (the default of [sys.int_max_str_digits]). Every failure is a
    [ValueError], here [None].

    On a string with a character outside ASCII, [int] also accepts the
    decimal digits and the blanks of Unicode. That table is not modelled:
    the reading of such strings is a parameter, [int_beyond_ascii]. *)

Definition is_space (c : ascii) : bool :=
  let n := nat_of_ascii c in
  ((9 <=? n) && (n <=? 13) || (n =? 32))%nat.

Definition digit_value (c : ascii) : option Z :=
  let n := nat_of_ascii c in
  if ((48 <=? n) && (n <=? 57))%nat then Some (Z.of_nat n - 48) else None.

Fixpoint lstrip (s : string) : string :=
  match s with
  | String c s' => if is_space c then lstrip s' else s
  | EmptyString => EmptyString
  end.

Fixpoint rstrip (s : string) : string :=
  match s with
  | String c s' =>
      match rstrip s' with
      | EmptyString => if is_space c then EmptyString else String c EmptyString
      | r => String c r
      end
  | EmptyString => EmptyString
  end.

(** The digits after a first digit, whose value so far is [acc]. *)
Fixpoint digits_from (acc : Z) (s : string) : option Z :=
  match s with
  | EmptyString => Some acc
  | String c s' =>
      match digit_value c with
      | Some d => digits_from (10 * acc + d) s'
      | None =>
          if Ascii.eqb c "_" then
            match s' with
            | String c' s'' =>
                match digit_value c' with
                | Some d => digits_from (10 * acc + d) s''
                | None => None
                end
            | EmptyString => None
            end
          else None
      end
  end.

Definition unsigned_literal (s : string) : option Z :=
  match s with
  | String c s' =>
      match digit_value c with
      | Some d => digits_from d s'
      | None => None
      end
  | EmptyString => None
  end.

Definition INT_MAX_STR_DIGITS : Z := 4300.

Fixpoint count_digits (s : string) : Z :=
  match s with
  | String c s' =>
      (if digit_value c is Some _ then 1 else 0) + count_digits s'
  | EmptyString => 0
  end.

Fixpoint is_ascii (s : string) : bool :=
  match s with
  | String c s' => (nat_of_ascii c <? 128)%nat && is_ascii s'
  | EmptyString => true
  end.

(** [int] on an ASCII string. *)
Definition ascii_int (s : string) : option Z :=
  let literal := rstrip (lstrip s) in
  if INT_MAX_STR_DIGITS <? count_digits literal then None
  else
    match literal with
    | String c s' =>
        if Ascii.eqb c "-" then Z.opp <$> unsigned_literal s'
        else if Ascii.eqb c "+" then unsigned_literal s'
        else unsigned_literal (String c s')
    | EmptyString => None
    end.

Section Reading.

Variable int_beyond_ascii : string → option Z.

Definition py_int (s : string) : option Z :=
  if is_ascii s then ascii_int s else int_beyond_ascii s.

End Reading.

(** ** Row operations on [Rating] and [CalcTime] *)

Definition set_ratings (rs : gmap (string * Z) Rating) (db : DB) : DB :=
  {| sessions := sessions db; boards := boards db; posts := posts db;
     ratings := rs; calctimes := calctimes db |}.

Definition set_calctimes (cs : gmap string Z) (db : DB) : DB :=
  {| sessions := sessions db; boards := boards db; posts := posts db;
     ratings := ratings db; calctimes := cs |}.

Definition set_sessions (ss : gset string) (db : DB) : DB :=
  {| sessions := ss; boards := boards db; posts := posts db;
     ratings := ratings db; calctimes := calctimes db |}.

(** [Rating.objects.update_or_create(user=.., target=.., defaults={'rank': rank})] *)
Definition update_or_create (user : string) (target : Z) (rk : Q)
    (rs : gmap (string * Z) Rating) : gmap (string * Z) Rating :=
  match rs !! (user, target) with
  | Some r => <[(user, target) := {| rank := rk; vote := vote r |}]> rs
  | None => <[(user, target) := {| rank := rk; vote := RATING_VOTE_DEFAULT |}]> rs
  end.

(** [Rating.objects.get_or_create(user=.., target=..)]: the row and the table. *)
Definition get_or_create (user : string) (target : Z)
    (rs : gmap (string * Z) Rating) : Rating * gmap (string * Z) Rating :=
  match rs !! (user, target) with
  | Some r => (r, rs)
  | None =>
      let r := {| rank := RATING_RANK_DEFAULT; vote := RATING_VOTE_DEFAULT |} in
      (r, <[(user, target) := r]> rs)
  end.

(** Lines 44-48 of [refresh_rank]: the session of the request, created when
    the request has no key or a key that is not in the table. *)
Definition ensure_session (req : Request) (db : DB) : string * DB :=
  match session_key req with
  | Some k =>
      if decide (k ∈ sessions db) then (k, db)
      else (new_session_key req,
            set_sessions ({[new_session_key req]} ∪ sessions db) db)
  | None =>
      (new_session_key req,
       set_sessions ({[new_session_key req]} ∪ sessions db) db)
  end.

(** [CalcTime.objects.get_or_create(user=user, defaults={'user': user})] *)
Definition calctime_get_or_create (user : string) (now : Z) (db : DB)
    : Z * bool * DB :=
  match calctimes db !! user with
  | Some t => (t, false, db)
  | None =>
      (CALCTIME_DEFAULT now, true,
       set_calctimes (<[user := CALCTIME_DEFAULT now]> (calctimes db)) db)
  end.

(** Body of the loop over [rep.items()] (lines 71-78): only User->Post
    results are saved. *)
Definition persist_rank (user : string) (target : Node) (rk : Q)
    (rs : gmap (string * Z) Rating) : gmap (string * Z) Rating :=
  match target with
  | Content pk => update_or_create user pk rk rs
  | Actor _ => rs
  end.

(** Which [return] of [refresh_rank] was taken: line 52 or line 80. *)
Inductive Path := Cached | Recomputed.

Record Refreshed := {
  user : string;
  path : Path;
  db_after : DB
}.

(** ** Annotated query sets *)

Record Annotated := {
  ann_pk : Z;
  ann_post : Post;
  ann_rank : Q;
  ann_vote : option Z
}.

Definition annotate (rs : gmap (string * Z) Rating) (usr : string)
    (row : Z * Post) : Annotated :=
  {| ann_pk := row.1;
     ann_post := row.2;
     (* Coalesce is required to force NULLs -> 0.0 *)
     ann_rank := from_option rank 0%Q (rs !! (usr, row.1));
     ann_vote := vote <$> rs !! (usr, row.1) |}.

Definition multi_annotate (usr : string) (threads : list (Z * Post)) (db : DB)
    : list Annotated :=
  annotate (ratings db) usr <$> threads.

(** [single_annotate]: [Rating.objects.get] raises when there is no row; the
    viewer's own thread gets no [rank] and no [vote] attribute. *)
Definition single_annotate (usr : string) (thr : Z * Post) (db : DB)
    : Exn + (Z * Post * option (Q * Z)) :=
  if decide (usr ≠ session thr.2) then
    match ratings db !! (usr, thr.1) with
    | Some r => inr (thr, Some (rank r, vote r))
    | None => inl DoesNotExist
    end
  else inr (thr, None).

(** [board.post_set.all().filter(thread__isnull=True)] *)
Definition board_threads (brd : string) (db : DB) : list (Z * Post) :=
  filter (λ row, board row.2 = brd ∧ thread row.2 = None) (map_to_list (posts db)).

(** [thread.post_set.all()] *)
Definition post_set (thread_id : Z) (db : DB) : list (Z * Post) :=
  filter (λ row, thread row.2 = Some thread_id) (map_to_list (posts db)).

(** [order_by('-rank')]: descending rank, ties in an order of the
    database's choosing. *)
Definition rank_desc : relation Annotated :=
  λ a b, Qle_bool (ann_rank b) (ann_rank a) = true.

#[global] Instance rank_desc_dec : RelDecision rank_desc.
Proof. intros a b. unfold rank_desc. apply _. Defined.

(** Lines 137-139 of [list_threads]: the threads of the board, kept when
    they are the viewer's own or have a positive rank. *)
Definition threads_queryset (usr : string) (brd : string) (db : DB)
    : list Annotated :=
  merge_sort rank_desc
    (filter (λ a, session (ann_post a) = usr ∨ Qltb 0 (ann_rank a) = true)
       (multi_annotate usr (board_threads brd db) db)).

(** [multi_annotate(user, thread.post_set.all()).exclude(rank__lt=SHADOWBAN_THRESHOLD)] *)
Definition replies_queryset (usr : string) (thread_id : Z) (db : DB)
    : list Annotated :=
  filter (λ a, Qltb (ann_rank a) SHADOWBAN_THRESHOLD = false)
    (multi_annotate usr (post_set thread_id db) db).

(** [Paginator(object_list, per_page).page(number)]; [None] is [InvalidPage]. *)
Definition num_pages {A} (l : list A) (per_page : nat) : nat :=
  Nat.div (Nat.max 1 (length l) + per_page - 1) per_page.

Definition paginator_page {A} (l : list A) (per_page : nat) (number : Z)
    : option (list A) :=
  if decide (number < 1) then None
  else if decide (Z.of_nat (num_pages l per_page) < number) then None
  else Some (take per_page (drop ((Z.to_nat number - 1) * per_page) l)).

(** ** The voting endpoint (views.py, lines 303-312) *)

Inductive Json :=
  | JsonVote (total : Z)       (* {'vote': rating.vote} *)
  | JsonNotAllowed.            (* {'vote': 'Not allowed'} *)

(** The step of the vote: [1 if int(vote) == 1 else -1]. *)
Definition vote_step (n : Z) : Z := if decide (n = 1) then 1 else -1.

Section Voting.

Variable int_beyond_ascii : string → option Z.

(** The response, or the exception that left the view, and the database as
    it stands then: each ORM call commits on its own. *)
Definition post_vote (req : Request) (db : DB) : (Exn + Json) * DB :=
  match GET req !! "vote" with
  | None => (inl MultiValueDictKeyError, db)
  | Some vote_param =>
    match GET req !! "post" with
    | None => (inl MultiValueDictKeyError, db)
    | Some post_param =>
      match py_int int_beyond_ascii post_param with
      | None => (inl ValueError, db)
      | Some target =>
        match posts db !! target with
        | None => (inl DoesNotExist, db)
        | Some _ =>
          match session_key req with
          | None => (inl DoesNotExist, db)
          | Some usr =>
            if decide (usr ∈ sessions db) then
              let '(rating, rs) := get_or_create usr target (ratings db) in
              (* [target] and [rating] are model instances, which are true *)
              if decide (vote_param ≠ "") then
                match py_int int_beyond_ascii vote_param with
                | None => (inl ValueError, set_ratings rs db)
                | Some n =>
                    let rating' :=
                      {| rank := rank rating; vote := vote rating + vote_step n |} in
                    (inr (JsonVote (vote rating')),
                     set_ratings (<[(usr, target) := rating']> rs) db)
                end
              else (inr JsonNotAllowed, set_ratings rs db)
            else (inl DoesNotExist, db)
          end
        end
      end
    end
  end.

End Voting.

(** ** The rank pipeline and the views that run it

    [libs/meritrank/trust.py] is not part of the sources at hand: the
    propagation routine is a parameter. [BL_PHT G seed] is the object the
    constructor returns, applied to the arguments of its [compute] method. *)

Section Engine.

Variable BL_PHT : DiGraph → Node → Node → Node → Q.

(** [calc_rep] (lines 83-90) *)
Definition calc_rep (graph : DiGraph) (seed_node : Node) : gmap Node Q :=
  let ppr := BL_PHT graph seed_node in
  foldl (λ reputation n,
           if decide (n ≠ seed_node)
           then <[n := ppr seed_node n]> reputation
           else reputation)
        ∅ (nodes graph).

(** [refresh_rank] (lines 43-80). [now] is the clock at line 50 and [now']
    the clock at line 79. *)
Definition refresh_rank (settings : Settings) (req : Request) (now now' : Z)
    (db : DB) : Refreshed :=
  let '(usr, db1) := ensure_session req db in
  let '(rank_calc_time, created, db2) := calctime_get_or_create usr now db1 in
  let cache_expired := bool_decide (now < rank_calc_time + timedelta_hours 1) in
  if negb cache_expired && negb created && negb (RANK_DEBUG settings) then
    {| user := usr; path := Cached; db_after := db2 |}
  else
    let G := build_graph db2 in
    let rep := calc_rep G (Actor usr) in
    let rs := map_fold (persist_rank usr) (ratings db2) rep in
    let db3 := set_ratings rs db2 in
    {| user := usr; path := Recomputed;
       db_after := set_calctimes (alter (λ _, now') usr (calctimes db3)) db3 |}.

(** What a view hands to its template, or how it ends otherwise. *)
Inductive Response :=
  | Http404
  | Redirect
  | Raised (e : Exn)
  | RenderThreads (threads_dict : list (Annotated * list Annotated))
  | RenderThread (thr : Z * Post * option (Q * Z)) (shown : list Annotated).

(** [list_threads] for a GET request (lines 130-160). *)
Definition list_threads (settings : Settings) (req : Request) (brd : string)
    (pagenum : Z) (now now' : Z) (db : DB) : Response * DB :=
  if decide (brd ∈ boards db) then
    let r := refresh_rank settings req now now' db in
    let db' := db_after r in
    let threads := threads_queryset (user r) brd db' in
    match paginator_page threads 10 pagenum with
    | None => (Redirect, db')
    | Some page =>
        (RenderThreads
           ((λ t, (t, take 4 (replies_queryset (user r) (ann_pk t) db'))) <$> page),
         db')
    end
  else (Http404, db).

(** [get_thread] for a GET request (lines 180-196). *)
Definition get_thread (settings : Settings) (req : Request) (thread_id : Z)
    (brd : string) (now now' : Z) (db : DB) : Response * DB :=
  if decide (brd ∈ boards db) then
    match posts db !! thread_id with
    | None => (Http404, db)
    | Some p =>
        let r := refresh_rank settings req now now' db in
        let db' := db_after r in
        match single_annotate (user r) (thread_id, p) db' with
        | inl e => (Raised e, db')
        | inr thr => (RenderThread thr (replies_queryset (user r) thread_id db'), db')
        end
    end
  else (Http404, db).

End Engine.

(** ** [ajax_discover_new_threads] (views.py, lines 236-252) *)

(** The threads of the board that are not the viewer's own and whose
    annotated rank equals [0.0]. *)
Definition stranded_threads (usr brd : string) (db : DB) : list Annotated :=
  filter (λ a, session (ann_post a) ≠ usr ∧ Qeq_bool (ann_rank a) 0 = true)
    (multi_annotate usr (board_threads brd db) db).

(** The answer of the view: 404, the empty answer with status 204, or the
    threads whose renderings make up the JSON answer, in order. *)
Inductive Discovery :=
  | DiscoverNotFound
  | NoContent
  | Discovered (threads : list Annotated).

Section Discover.

Variable BL_PHT : DiGraph → Node → Node → Node → Q.

Definition ajax_discover_new_threads (settings : Settings) (req : Request)
    (brd : string) (now now' : Z) (db : DB) : Discovery * DB :=
  if decide (brd ∈ boards db) then
    let r := refresh_rank BL_PHT settings req now now' db in
    match stranded_threads (user r) brd (db_after r) with
    | [] => (NoContent, db_after r)
    | stranded => (Discovered stranded, db_after r)
    end
  else (DiscoverNotFound, db).

End Discover.

(** ** [str(int)] and [random_digit_challenge] (views.py, lines 272-276)

    [str] writes an integer in decimal, with a minus sign when it is
    negative; the interpreter's limit on the number of digits is left out.
    [randint i] is the value of the [i]-th call of [randint(0, 9)]. *)

Definition py_str (n : Z) : string := NilZero.string_of_int (Z.to_int n).

Definition random_digit_challenge (randint : nat → Z) : string * string :=
  let code := foldl (λ code i, code +:+ py_str (randint i)) EmptyString (seq 0 4) in
  (code, code).

(** The value of [code] after the four rounds, by the draws. *)
Definition four_digit_code (a b c d : Z) : string :=
  ((("" +:+ py_str a) +:+ py_str b) +:+ py_str c) +:+ py_str d.

(** ** Decidable equality and order, to evaluate queries on concrete data *)

#[global] Instance Q_eq_dec : EqDecision Q.
Proof. solve_decision. Defined.

#[global] Instance Post_eq_dec : EqDecision Post.
Proof. solve_decision. Defined.

#[global] Instance Annotated_eq_dec : EqDecision Annotated.
Proof. solve_decision. Defined.

#[global] Instance Qlt_decision (x y : Q) : Decision (x < y)%Q.
Proof.
  destruct (Qlt_le_dec x y) as [Hlt|Hle]; [by left|right].
  by apply Qle_not_lt.
Defined.

Ltac by_evaluation := apply (bool_decide_unpack _); vm_compute; exact I.

(** ** The visibility rule in the specification's words

    "Exclude content whose rank (from the viewer's perspective) falls
    strictly below SHADOWBAN_THRESHOLD, except content authored by the
    viewer, which is always visible regardless of rank": of the candidates,
    exactly those are left out. *)
Definition shadowban_rule (usr : string) (candidates shown : list Annotated) : Prop :=
  ∀ a, a ∈ candidates →
    (a ∉ shown ↔
       (ann_rank a < SHADOWBAN_THRESHOLD)%Q ∧ session (ann_post a) ≠ usr).

(** ** The rank rule in the specification's words, for an opening post

    "Absent entries coalesce to zero, never null": when the viewer has no
    [Rating] row for the thread, the annotation of the opening post of its
    thread page carries the rank 0. *)
Definition opening_post_rank_rule (usr : string) (db : DB) (pk : Z) (p : Post)
    : Prop :=
  ratings db !! (usr, pk) = None →
  ∃ v, single_annotate usr (pk, p) db = inr (pk, p, Some (0%Q, v)).

(** ** Sample data

    A board with two threads and two replies, the votes of the
    specification's scenario (B votes +5 and C votes -2 on A's post), a vote
    of -5, and a propagation routine that scores every node one half. *)

Definition no_debug : Settings := {| RANK_DEBUG := false |}.

Definition sample_db : DB := {|
  sessions := {["A"; "B"; "C"]};
  boards := {["b"]};
  posts :=
    <[1 := {| session := "A"; thread := None; board := "b" |}]>
    (<[2 := {| session := "B"; thread := Some 1; board := "b" |}]>
    (<[3 := {| session := "B"; thread := None; board := "b" |}]>
    (<[4 := {| session := "A"; thread := Some 1; board := "b" |}]> ∅)));
  ratings :=
    <[("B", 1) := {| rank := (1 # 2)%Q; vote := 5 |}]>
    (<[("C", 1) := {| rank := (-1 # 4)%Q; vote := -2 |}]>
    (<[("A", 4) := {| rank := (-1)%Q; vote := 0 |}]>
    (<[("A", 2) := {| rank := (1 # 4)%Q; vote := 0 |}]>
    (<[("C", 2) := {| rank := 0%Q; vote := -5 |}]> ∅))));
  calctimes := {["A" := 0]}
|}.

(** One post by A, nothing rated and nothing computed yet. *)
Definition first_post_db : DB := {|
  sessions := {["A"]};
  boards := {["b"]};
  posts := {[1 := {| session := "A"; thread := None; board := "b" |}]};
  ratings := ∅;
  calctimes := ∅
|}.

Definition request_of (key : string) (params : gmap string string) : Request :=
  {| session_key := Some key; new_session_key := "fresh"; GET := params |}.

(** The request with its [vote] parameter set to [vote_param]. *)
Definition with_vote (req : Request) (vote_param : string) : Request :=
  {| session_key := session_key req; new_session_key := new_session_key req;
     GET := <["vote" := vote_param]> (GET req) |}.

Definition vote_request (key post_param vote_param : string) : Request :=
  request_of key (<["vote" := vote_param]> (<["post" := post_param]> ∅)).

Definition half_everywhere : DiGraph → Node → Node → Node → Q :=
  λ _ _ _ _, (1 # 2)%Q.

(** A reading of the strings beyond ASCII that accepts none of them. *)
Definition none_beyond_ascii : string → option Z := λ _, None.

(** * Properties *)

(** ** The boolean comparison of ranks *)

Lemma Qltb_lt (x y : Q) : Qltb x y = true ↔ (x < y)%Q.
Proof.
  unfold Qltb. rewrite negb_true_iff.
  split.
  - intros Hb. apply Qnot_le_lt. intros Hle.
    apply Qle_bool_iff in Hle. congruence.
  - intros Hlt. destruct (Qle_bool y x) eqn:E; [|done].
    apply Qle_bool_iff in E. exfalso. by apply (Qlt_not_le x y).
Qed.

Lemma Qltb_ge (x y : Q) : Qltb x y = false ↔ (y <= x)%Q.
Proof.
  unfold Qltb. rewrite negb_false_iff. apply Qle_bool_iff.
Qed.

(** ** Edges and nodes of a graph under [add_edge] *)

Section graph_facts.

Implicit Types (G : DiGraph) (u v n : Node) (w : Z).

Lemma adj_add_node n G : adj (add_node n G) = adj G.
Proof. unfold add_node. by case_decide. Qed.

Lemma adj_add_edge u v w G :
  adj (add_edge u v w G) = <[(u, v) := w]> (adj G).
Proof. unfold add_edge. simpl. by rewrite !adj_add_node. Qed.

Lemma adj_add_edge_eq u v w G : adj (add_edge u v w G) !! (u, v) = Some w.
Proof. rewrite adj_add_edge. apply lookup_insert_eq. Qed.

Lemma adj_add_edge_ne u v w G e :
  (u, v) ≠ e → adj (add_edge u v w G) !! e = adj G !! e.
Proof. intros Hne. rewrite adj_add_edge. by apply lookup_insert_ne. Qed.

Lemma elem_of_add_node n m G : m ∈ nodes (add_node n G) ↔ m = n ∨ m ∈ nodes G.
Proof.
  unfold add_node. case_decide; simpl.
  - split; [by right | by intros [->|]].
  - rewrite elem_of_app, list_elem_of_singleton. tauto.
Qed.

Lemma elem_of_add_edge u v w m G :
  m ∈ nodes (add_edge u v w G) ↔ m = u ∨ m = v ∨ m ∈ nodes G.
Proof. unfold add_edge. simpl. rewrite !elem_of_add_node. tauto. Qed.

Lemma NoDup_add_node n G : NoDup (nodes G) → NoDup (nodes (add_node n G)).
Proof.
  intros Hnd. unfold add_node. case_decide; [done|]. simpl.
  apply NoDup_app. split_and!; [done | | apply NoDup_singleton].
  intros x Hx ->%list_elem_of_singleton. done.
Qed.

Lemma NoDup_add_edge u v w G : NoDup (nodes G) → NoDup (nodes (add_edge u v w G)).
Proof. intros Hnd. unfold add_edge. simpl. by do 2 apply NoDup_add_node. Qed.
End graph_facts.

(** ** The graph that [refresh_rank] builds *)

(** After the loop over the posts: the two authorship edges of every post. *)
Lemma post_edges_weights (ps : gmap Z Post) :
  let G := map_fold add_post_edges empty_graph ps in
  (∀ pk p, ps !! pk = Some p →
     adj G !! (Actor (session p), Content pk) = Some MINIMAL_AUTHOR_VOTE ∧
     adj G !! (Content pk, Actor (session p)) = Some POST_TO_USER_VOTE ∧
     Content pk ∈ nodes G ∧ Actor (session p) ∈ nodes G).
Proof.
  apply (map_fold_weak_ind (λ G ps, ∀ pk p, ps !! pk = Some p →
     adj G !! (Actor (session p), Content pk) = Some MINIMAL_AUTHOR_VOTE ∧
     adj G !! (Content pk, Actor (session p)) = Some POST_TO_USER_VOTE ∧
     Content pk ∈ nodes G ∧ Actor (session p) ∈ nodes G)).
  - intros pk p. by rewrite lookup_empty.
  - intros i x m G Hfresh IH pk p. unfold add_post_edges.
    rewrite !elem_of_add_edge.
    destruct (decide (i = pk)) as [->|Hne].
    + rewrite lookup_insert_eq. intros [= ->].
      rewrite adj_add_edge_eq, adj_add_edge_ne, adj_add_edge_eq by done. tauto.
    + rewrite lookup_insert_ne by done. intros Hp.
      destruct (IH pk p Hp) as (H1 & H2 & H3 & H4).
      rewrite !adj_add_edge_ne by congruence. tauto.
Qed.

(** The loop over the ratings keeps every node, writes the edge of every
    row, and leaves the other edges as they were. *)
Lemma rating_edges_weights (G0 : DiGraph) (rs : gmap (string * Z) Rating) :
  let G := map_fold add_rating_edge G0 rs in
  (∀ n, n ∈ nodes G0 → n ∈ nodes G) ∧
  (∀ u t, adj G !! (Actor u, Content t) =
     match rs !! (u, t) with
     | Some r => Some (amplify (vote r))
     | None => adj G0 !! (Actor u, Content t)
     end) ∧
  (∀ t u, adj G !! (Content t, u) = adj G0 !! (Content t, u)).
Proof.
  apply (map_fold_weak_ind (λ G rs,
    (∀ n, n ∈ nodes G0 → n ∈ nodes G) ∧
    (∀ u t, adj G !! (Actor u, Content t) =
       match rs !! (u, t) with
       | Some r => Some (amplify (vote r))
       | None => adj G0 !! (Actor u, Content t)
       end) ∧
    (∀ t u, adj G !! (Content t, u) = adj G0 !! (Content t, u)))).
  - split_and!; [done | | done]. intros u t. by rewrite lookup_empty.
  - intros [u' t'] x m G Hfresh (IHn & IHe & IHc). unfold add_rating_edge. cbn [fst snd].
    split_and!.
    + intros n Hn. rewrite elem_of_add_edge. auto.
    + intros u t. destruct (decide ((u', t') = (u, t))) as [[= -> ->]|Hne].
      * by rewrite lookup_insert_eq, adj_add_edge_eq.
      * rewrite lookup_insert_ne by done.
        rewrite adj_add_edge_ne by congruence. apply IHe.
    + intros t u. rewrite adj_add_edge_ne by congruence. apply IHc.
Qed.

(** The weight of the creator's edge into a post, in terms of the tables. *)
Lemma creator_edge_weight (db : DB) (pk : Z) (p : Post) :
  posts db !! pk = Some p →
  adj (build_graph db) !! (Actor (session p), Content pk) =
    Some (match ratings db !! (session p, pk) with
          | Some r => amplify (vote r)
          | None => MINIMAL_AUTHOR_VOTE
          end).
Proof.
  intros Hp. unfold build_graph.
  destruct (rating_edges_weights
              (map_fold add_post_edges empty_graph (posts db)) (ratings db))
    as (_ & He & _).
  rewrite He. destruct (ratings db !! (session p, pk)); [done|].
  by apply post_edges_weights.
Qed.

Lemma post_in_graph (db : DB) (pk : Z) (p : Post) :
  posts db !! pk = Some p → Content pk ∈ nodes (build_graph db).
Proof.
  intros Hp. unfold build_graph.
  apply rating_edges_weights. by eapply post_edges_weights.
Qed.

(** The node dictionary of the built graph has no key twice. *)
Lemma build_graph_nodes_NoDup (db : DB) : NoDup (nodes (build_graph db)).
Proof.
  unfold build_graph.
  apply (map_fold_weak_ind (λ G _, NoDup (nodes G))).
  - apply (map_fold_weak_ind (λ G _, NoDup (nodes G))).
    + apply NoDup_nil_2.
    + intros pk p ps G _ IH. unfold add_post_edges. by do 2 apply NoDup_add_edge.
  - intros key r rs G _ IH. unfold add_rating_edge. by apply NoDup_add_edge.
Qed.

(** C3: the edge of a recorded vote [v] from its actor to its content weighs
    [v] when [v >= 0] and [v * 10] when [v < 0]; for two recorded votes of
    equal magnitude and opposite sign, the negative one's edge weighs, in
    absolute value, 10 times the positive one's. *)
Theorem vote_edge_weight (db : DB) (u : string) (t : Z) (r : Rating) :
  ratings db !! (u, t) = Some r →
  (0 <= vote r → adj (build_graph db) !! (Actor u, Content t) = Some (vote r)) ∧
  (vote r < 0 → adj (build_graph db) !! (Actor u, Content t) = Some (vote r * 10)) ∧
  (∀ u' t' r', ratings db !! (u', t') = Some r' →
     0 < vote r → vote r' = - vote r →
     ∃ w w', adj (build_graph db) !! (Actor u, Content t) = Some w ∧
             adj (build_graph db) !! (Actor u', Content t') = Some w' ∧
             Z.abs w' = 10 * Z.abs w).
Proof.
  intros Hr.
  assert (Hw : ∀ u0 t0 r0, ratings db !! (u0, t0) = Some r0 →
    adj (build_graph db) !! (Actor u0, Content t0) = Some (amplify (vote r0))).
  { intros u0 t0 r0 H0. unfold build_graph.
    destruct (rating_edges_weights
                (map_fold add_post_edges empty_graph (posts db)) (ratings db))
      as (_ & He & _).
    by rewrite He, H0. }
  split_and!.
  - intros Hv. rewrite (Hw _ _ _ Hr). unfold amplify. by case_decide.
  - intros Hv. rewrite (Hw _ _ _ Hr). unfold amplify. case_decide; [lia|done].
  - intros u' t' r' Hr' Hpos Hopp.
    exists (amplify (vote r)), (amplify (vote r')).
    rewrite (Hw _ _ _ Hr), (Hw _ _ _ Hr'). split_and!; [done..|].
    unfold amplify, NEGATIVE_VOTE_AMPLIFICATION_COEFFICIENT.
    repeat case_decide; lia.
Qed.

(** ** The propagation step and the rows it persists *)

Section engine_facts.

Variable BL_PHT : DiGraph → Node → Node → Node → Q.

Lemma calc_rep_lookup (graph : DiGraph) (seed_node n : Node) :
  calc_rep BL_PHT graph seed_node !! n =
    if decide (n ∈ nodes graph ∧ n ≠ seed_node)
    then Some (BL_PHT graph seed_node seed_node n) else None.
Proof.
  unfold calc_rep.
  set (f := λ (reputation : gmap Node Q) (m : Node),
              if decide (m ≠ seed_node)
              then <[m := BL_PHT graph seed_node seed_node m]> reputation
              else reputation).
  assert (Hgen : ∀ l acc, foldl f acc l !! n =
            if decide (n ∈ l ∧ n ≠ seed_node)
            then Some (BL_PHT graph seed_node seed_node n) else acc !! n).
  { induction l as [|m l IH]; intros acc; cbn [foldl].
    - rewrite decide_False; [done|]. intros [H _]. by apply elem_of_nil in H.
    - rewrite IH. unfold f.
      destruct (decide (n ∈ l ∧ n ≠ seed_node)) as [[Hl Hs]|Hnl].
      + rewrite decide_True; [done|]. split; [by right|done].
      + destruct (decide (m = n)) as [->|Hmn].
        * destruct (decide (n ≠ seed_node)) as [Hs|Hs].
          -- rewrite lookup_insert_eq. rewrite decide_True; [done|].
             split; [by left|done].
          -- rewrite decide_False; [done|]. by intros [_ ?].
        * assert (Htail : (if decide (m ≠ seed_node)
                           then <[m := BL_PHT graph seed_node seed_node m]> acc
                           else acc) !! n = acc !! n).
          { case_decide; [by rewrite lookup_insert_ne|done]. }
          rewrite Htail. rewrite decide_False; [done|].
          intros [Hin Hs]. apply elem_of_cons in Hin as [->|Hin]; [done|].
          by apply Hnl. }
  rewrite Hgen. by rewrite lookup_empty.
Qed.

(** C6: the mapping [calc_rep] returns has no entry keyed by the seed node,
    and has an entry, the score [compute(seed, n)], for every other node [n]
    of the graph. *)
Theorem calc_rep_keys (graph : DiGraph) (seed_node : Node) :
  calc_rep BL_PHT graph seed_node !! seed_node = None ∧
  (∀ n, n ∈ nodes graph → n ≠ seed_node →
     calc_rep BL_PHT graph seed_node !! n =
       Some (BL_PHT graph seed_node seed_node n)).
Proof.
  split.
  - rewrite calc_rep_lookup. rewrite decide_False; [done|]. by intros [_ ?].
  - intros n Hn Hne. rewrite calc_rep_lookup. by rewrite decide_True.
Qed.

(** The rows of [Rating] after the loop over [rep.items()]. *)
Lemma persist_rank_lookup (usr : string) (rep : gmap Node Q)
    (rs : gmap (string * Z) Rating) (u : string) (t : Z) :
  map_fold (persist_rank usr) rs rep !! (u, t) =
    if decide (u = usr) then
      match rep !! Content t with
      | Some rk =>
          Some {| rank := rk;
                  vote := from_option vote RATING_VOTE_DEFAULT (rs !! (u, t)) |}
      | None => rs !! (u, t)
      end
    else rs !! (u, t).
Proof.
  revert u t.
  apply (map_fold_weak_ind (λ acc rep, ∀ u t,
    acc !! (u, t) =
      if decide (u = usr) then
        match rep !! Content t with
        | Some rk =>
            Some {| rank := rk;
                    vote := from_option vote RATING_VOTE_DEFAULT (rs !! (u, t)) |}
        | None => rs !! (u, t)
        end
      else rs !! (u, t))).
  - intros u t. rewrite lookup_empty. by case_decide.
  - intros i rk m acc Hfresh IH u t.
    destruct i as [a|pk]; simpl.
    + rewrite lookup_insert_ne by done. apply IH.
    + unfold update_or_create.
      assert (Hacc : acc !! (usr, pk) = rs !! (usr, pk)).
      { rewrite IH, decide_True by done. by rewrite Hfresh. }
      rewrite Hacc.
      destruct (decide ((usr, pk) = (u, t))) as [[= <- <-]|Hne].
      * rewrite decide_True by done. rewrite lookup_insert_eq.
        destruct (rs !! (usr, pk)); by rewrite lookup_insert_eq.
      * assert (Hk : acc !! (u, t) =
                  (<[(usr, pk) := {| rank := rk;
                       vote := from_option vote RATING_VOTE_DEFAULT
                                 (rs !! (usr, pk)) |}]> acc) !! (u, t))
          by (by rewrite lookup_insert_ne).
        destruct (rs !! (usr, pk)); simpl in Hk; rewrite <- Hk, IH;
          (case_decide as Hu; [|done]; subst u;
           rewrite lookup_insert_ne by congruence; done).
Qed.

End engine_facts.

(** ** [refresh_rank] *)

Lemma ensure_session_tables (req : Request) (db : DB) :
  posts (ensure_session req db).2 = posts db ∧
  ratings (ensure_session req db).2 = ratings db ∧
  calctimes (ensure_session req db).2 = calctimes db ∧
  boards (ensure_session req db).2 = boards db.
Proof. unfold ensure_session. repeat case_match; done. Qed.

Lemma ensure_session_known (req : Request) (db : DB) (usr : string) :
  session_key req = Some usr → usr ∈ sessions db →
  ensure_session req db = (usr, db).
Proof. intros Hk Hin. unfold ensure_session. rewrite Hk. by rewrite decide_True. Qed.

Lemma calctime_get_or_create_tables (usr : string) (now : Z) (db : DB) :
  posts (calctime_get_or_create usr now db).2 = posts db ∧
  ratings (calctime_get_or_create usr now db).2 = ratings db ∧
  boards (calctime_get_or_create usr now db).2 = boards db ∧
  is_Some (calctimes (calctime_get_or_create usr now db).2 !! usr).
Proof.
  unfold calctime_get_or_create. destruct (calctimes db !! usr) eqn:E; simpl.
  - by rewrite E.
  - by rewrite lookup_insert_eq.
Qed.

Lemma build_graph_ext (db db' : DB) :
  posts db' = posts db → ratings db' = ratings db →
  build_graph db' = build_graph db.
Proof. intros Hp Hr. unfold build_graph. by rewrite Hp, Hr. Qed.

Section refresh_facts.

Variable BL_PHT : DiGraph → Node → Node → Node → Q.

(** What a call leaves in the tables, by the [return] it took. *)
Lemma refresh_rank_tables (settings : Settings) (req : Request)
    (now now' : Z) (db : DB) :
  let r := refresh_rank BL_PHT settings req now now' db in
  posts (db_after r) = posts db ∧
  boards (db_after r) = boards db ∧
  match path r with
  | Cached => ratings (db_after r) = ratings db
  | Recomputed =>
      ratings (db_after r) =
        map_fold (persist_rank (user r)) (ratings db)
          (calc_rep BL_PHT (build_graph db) (Actor (user r))) ∧
      calctimes (db_after r) !! user r = Some now'
  end.
Proof.
  unfold refresh_rank.
  destruct (ensure_session req db) as [usr db1] eqn:E1.
  destruct (ensure_session_tables req db) as (Hp1 & Hr1 & _ & Hb1).
  rewrite E1 in Hp1, Hr1, Hb1. simpl in Hp1, Hr1, Hb1.
  destruct (calctime_get_or_create usr now db1) as [[t created] db2] eqn:E2.
  destruct (calctime_get_or_create_tables usr now db1) as (Hp2 & Hr2 & Hb2 & Hc2).
  rewrite E2 in Hp2, Hr2, Hb2, Hc2. simpl in Hp2, Hr2, Hb2, Hc2.
  case_match; simpl.
  - split_and!; congruence.
  - split_and!; [congruence.. | | ].
    + rewrite (build_graph_ext db db2) by congruence. by rewrite Hr2, Hr1.
    + rewrite lookup_alter_eq. destruct Hc2 as [t' ->]. done.
Qed.

(** For an actor whose session and [CalcTime] row exist, the early return
    is taken exactly when an hour or more has passed since
    [rank_calc_time] and [RANK_DEBUG] is off. *)
Lemma refresh_rank_path (settings : Settings) (req : Request)
    (now now' : Z) (db : DB) (usr : string) (t : Z) :
  session_key req = Some usr → usr ∈ sessions db →
  calctimes db !! usr = Some t →
  let r := refresh_rank BL_PHT settings req now now' db in
  user r = usr ∧
  (path r = Cached ↔ t + timedelta_hours 1 <= now ∧ RANK_DEBUG settings = false) ∧
  (path r = Cached → db_after r = db).
Proof.
  intros Hk Hin Hc. unfold refresh_rank.
  rewrite (ensure_session_known req db usr Hk Hin).
  unfold calctime_get_or_create. rewrite Hc.
  destruct (RANK_DEBUG settings); simpl.
  - rewrite andb_false_r. simpl. split_and!; [done| |done]. split; [done|].
    by intros [_ ?].
  - rewrite andb_true_r.
    destruct (bool_decide (now < t + timedelta_hours 1)) eqn:Eb; simpl.
    + apply bool_decide_eq_true in Eb. split_and!; [done| |done].
      split; [done|]. intros [? _]. lia.
    + apply bool_decide_eq_false in Eb. split_and!; [done| |done].
      split; [|done]. intros _. split; [lia|done].
Qed.

End refresh_facts.

Section pipeline_claims.

Variable BL_PHT : DiGraph → Node → Node → Node → Q.

Lemma refresh_rank_user (settings : Settings) (req : Request)
    (now now' : Z) (db : DB) (usr : string) :
  session_key req = Some usr → usr ∈ sessions db →
  user (refresh_rank BL_PHT settings req now now' db) = usr.
Proof.
  intros Hk Hin. unfold refresh_rank.
  rewrite (ensure_session_known req db usr Hk Hin).
  destruct (calctime_get_or_create usr now db) as [[t created] db2].
  by case_match.
Qed.

(** C1: on the sample database the [CalcTime] row of A holds time 0 and
    [RANK_DEBUG] is off. Two hours later [refresh_rank] takes the early
    return and leaves the database as it is; ten seconds later it rebuilds
    the graph and stores the time of the recomputation. *)
Theorem refresh_rank_ttl_inverted :
  let stale := refresh_rank BL_PHT no_debug (request_of "A" ∅)
                 (timedelta_hours 2) (timedelta_hours 2 + 1) sample_db in
  let recent := refresh_rank BL_PHT no_debug (request_of "A" ∅)
                  10000000 10000001 sample_db in
  (path stale = Cached ∧ db_after stale = sample_db) ∧
  (path recent = Recomputed ∧
   calctimes (db_after recent) !! "A" = Some 10000001).
Proof.
  assert (Hk : session_key (request_of "A" ∅) = Some "A") by done.
  assert (Hin : "A" ∈ sessions sample_db) by (by vm_compute).
  assert (Hc : calctimes sample_db !! "A" = Some 0) by done.
  split.
  - destruct (refresh_rank_path BL_PHT no_debug (request_of "A" ∅)
                (timedelta_hours 2) (timedelta_hours 2 + 1) sample_db "A" 0
                Hk Hin Hc) as (_ & Hpath & Hdb).
    assert (Hcached : path (refresh_rank BL_PHT no_debug (request_of "A" ∅)
                (timedelta_hours 2) (timedelta_hours 2 + 1) sample_db) = Cached).
    { apply Hpath. split; [unfold timedelta_hours; lia|reflexivity]. }
    split; [exact Hcached|]. exact (Hdb Hcached).
  - destruct (refresh_rank_path BL_PHT no_debug (request_of "A" ∅)
                10000000 10000001 sample_db "A" 0 Hk Hin Hc) as (Hu & Hpath & _).
    pose proof (refresh_rank_tables BL_PHT no_debug (request_of "A" ∅)
                10000000 10000001 sample_db) as (_ & _ & Hcase).
    destruct (path (refresh_rank BL_PHT no_debug (request_of "A" ∅)
                10000000 10000001 sample_db)) eqn:Ep.
    + exfalso. destruct Hpath as [Hpath _].
      destruct (Hpath eq_refl) as [Hle _]. unfold timedelta_hours in Hle. lia.
    + split; [reflexivity|]. destruct Hcase as [_ Hct]. rewrite Hu in Hct. exact Hct.
Qed.

(** C4: an author who has cast no vote on their own post (there is no
    [Rating] row for the pair) has an edge of weight [MINIMAL_AUTHOR_VOTE]
    into it; once one of the author's own requests has recomputed the
    ranks, the row that stores the post's rank carries the default vote,
    and the next graph gives that edge the weight 0. *)
Theorem creator_edge_after_refresh (settings : Settings) (req : Request)
    (now now' : Z) (db : DB) (usr : string) (pk : Z) (p : Post) :
  session_key req = Some usr → usr ∈ sessions db →
  posts db !! pk = Some p → session p = usr →
  ratings db !! (usr, pk) = None →
  let r := refresh_rank BL_PHT settings req now now' db in
  path r = Recomputed →
  adj (build_graph db) !! (Actor usr, Content pk) = Some MINIMAL_AUTHOR_VOTE ∧
  vote <$> ratings (db_after r) !! (usr, pk) = Some RATING_VOTE_DEFAULT ∧
  adj (build_graph (db_after r)) !! (Actor usr, Content pk) = Some 0.
Proof.
  intros Hk Hin Hp Hs Hnone r Hpath.
  pose proof (refresh_rank_tables BL_PHT settings req now now' db) as (Hposts & _ & Hcase).
  fold r in Hposts, Hcase. rewrite Hpath in Hcase. destruct Hcase as [Hrs _].
  assert (Hu : user r = usr) by (by apply refresh_rank_user).
  rewrite Hu in Hrs.
  assert (Hrow : ratings (db_after r) !! (usr, pk) =
            Some {| rank := BL_PHT (build_graph db) (Actor usr) (Actor usr) (Content pk);
                    vote := RATING_VOTE_DEFAULT |}).
  { rewrite Hrs, persist_rank_lookup, decide_True by done.
    destruct (calc_rep_keys BL_PHT (build_graph db) (Actor usr)) as [_ Hall].
    rewrite (Hall (Content pk)); [|by eapply post_in_graph|done].
    by rewrite Hnone. }
  split_and!.
  - pose proof (creator_edge_weight db pk p Hp) as Hw.
    rewrite Hs, Hnone in Hw. exact Hw.
  - rewrite Hrow. reflexivity.
  - assert (Hp' : posts (db_after r) !! pk = Some p) by (rewrite Hposts; exact Hp).
    pose proof (creator_edge_weight (db_after r) pk p Hp') as Hw.
    rewrite Hs, Hrow in Hw. exact Hw.
Qed.

End pipeline_claims.

Lemma creator_edge_after_refresh_witness :
  adj (build_graph first_post_db) !! (Actor "A", Content 1) = Some 1 ∧
  adj (build_graph (db_after (refresh_rank half_everywhere no_debug
         (request_of "A" ∅) 5 6 first_post_db))) !! (Actor "A", Content 1) = Some 0.
Proof.
  destruct (creator_edge_after_refresh half_everywhere no_debug
              (request_of "A" ∅) 5 6 first_post_db "A" 1
              {| session := "A"; thread := None; board := "b" |})
    as (H1 & _ & H2); [reflexivity | by vm_compute | reflexivity..
                       | by vm_compute | by split].
Defined.

(** ** The voting endpoint *)

Lemma get_or_create_lookup (usr : string) (target : Z)
    (rs : gmap (string * Z) Rating) :
  (get_or_create usr target rs).1 =
    {| rank := from_option rank RATING_RANK_DEFAULT (rs !! (usr, target));
       vote := from_option vote RATING_VOTE_DEFAULT (rs !! (usr, target)) |} ∧
  (get_or_create usr target rs).2 !! (usr, target) = Some (get_or_create usr target rs).1 ∧
  (∀ k, k ≠ (usr, target) → (get_or_create usr target rs).2 !! k = rs !! k).
Proof.
  unfold get_or_create. destruct (rs !! (usr, target)) as [[rk v]|] eqn:E; simpl.
  - done.
  - split_and!; [done | by rewrite lookup_insert_eq |].
    intros k Hk. by rewrite lookup_insert_ne.
Qed.

Lemma py_int_nonempty (int_beyond_ascii : string → option Z)
    (s : string) (n : Z) :
  py_int int_beyond_ascii s = Some n → s ≠ "".
Proof. by intros H ->. Qed.

(** A well-formed vote request: known session, existing post, integer vote. *)
Lemma post_vote_success (int_beyond_ascii : string → option Z)
    (req : Request) (db : DB) (usr : string) (target : Z)
    (p : Post) (post_param vote_param : string) (n : Z) :
  GET req !! "vote" = Some vote_param →
  GET req !! "post" = Some post_param →
  py_int int_beyond_ascii post_param = Some target →
  posts db !! target = Some p →
  session_key req = Some usr → usr ∈ sessions db →
  py_int int_beyond_ascii vote_param = Some n →
  let old := from_option vote RATING_VOTE_DEFAULT (ratings db !! (usr, target)) in
  post_vote int_beyond_ascii req db =
    (inr (JsonVote (old + vote_step n)),
     set_ratings
       (<[(usr, target) :=
            {| rank := from_option rank RATING_RANK_DEFAULT (ratings db !! (usr, target));
               vote := old + vote_step n |}]> (ratings db)) db).
Proof.
  intros Hv Hp Hpk Hpost Hk Hin Hn old. unfold post_vote.
  rewrite Hv, Hp, Hpk, Hpost, Hk. rewrite decide_True by done.
  unfold get_or_create.
  subst old. destruct (ratings db !! (usr, target)) as [r|]; cbn -[py_int];
    rewrite (decide_True _ _ (py_int_nonempty int_beyond_ascii _ _ Hn)), Hn; simpl.
  - done.
  - by rewrite insert_insert_eq.
Qed.

(** However the view ends, only [Rating] may have changed, and a row of it
    either is as before or keeps the rank it had (the default rank, for a
    row the view created). *)
Lemma post_vote_frame (int_beyond_ascii : string → option Z)
    (req : Request) (db : DB) :
  let db' := (post_vote int_beyond_ascii req db).2 in
  sessions db' = sessions db ∧ boards db' = boards db ∧
  posts db' = posts db ∧ calctimes db' = calctimes db ∧
  (∀ k, ratings db' !! k = ratings db !! k ∨
        ∃ r', ratings db' !! k = Some r' ∧
              rank r' = from_option rank RATING_RANK_DEFAULT (ratings db !! k)).
Proof.
  unfold post_vote.
  destruct (GET req !! "vote") as [vote_param|]; [|by split_and!; auto].
  destruct (GET req !! "post") as [post_param|]; [|by split_and!; auto].
  destruct (py_int int_beyond_ascii post_param) as [target|]; [|by split_and!; auto].
  destruct (posts db !! target) as [p|]; [|by split_and!; auto].
  destruct (session_key req) as [usr|]; [|by split_and!; auto].
  case_decide; [|by split_and!; auto].
  destruct (get_or_create_lookup usr target (ratings db)) as (Hrow & Hnew & Hother).
  destruct (get_or_create usr target (ratings db)) as [rating rs] eqn:E.
  simpl in Hrow, Hnew, Hother.
  assert (Hrs : ∀ k, rs !! k = ratings db !! k ∨
            ∃ r', rs !! k = Some r' ∧
              rank r' = from_option rank RATING_RANK_DEFAULT (ratings db !! k)).
  { intros k. destruct (decide (k = (usr, target))) as [->|Hne].
    - right. exists rating. split; [done|]. by rewrite Hrow.
    - left. by apply Hother. }
  case_decide; [|by split_and!].
  destruct (py_int int_beyond_ascii vote_param) as [n|]; [|by split_and!].
  simpl. split_and!; [done..|].
  intros k. destruct (decide (k = (usr, target))) as [->|Hne].
  - right. eexists. rewrite lookup_insert_eq. split; [done|]. simpl. by rewrite Hrow.
  - rewrite lookup_insert_ne by done. apply Hrs.
Qed.

Section endpoint_claims.

Variable BL_PHT : DiGraph → Node → Node → Node → Q.
Variable int_beyond_ascii : string → option Z.

(** C5: [refresh_rank], which persists the ranks, leaves the vote of every
    [Rating] row as it was (a row it creates carries the default vote), and
    [post_vote], which records a vote, leaves the rank of every row as it
    was (a row it creates carries the default rank). *)
Theorem rank_and_vote_writers (settings : Settings) (req vreq : Request)
    (now now' : Z) (db : DB) (k : string * Z) :
  let after_refresh := db_after (refresh_rank BL_PHT settings req now now' db) in
  let after_vote := (post_vote int_beyond_ascii vreq db).2 in
  (vote <$> ratings after_refresh !! k = vote <$> ratings db !! k ∨
   (ratings db !! k = None ∧
    vote <$> ratings after_refresh !! k = Some RATING_VOTE_DEFAULT)) ∧
  (rank <$> ratings after_vote !! k = rank <$> ratings db !! k ∨
   (ratings db !! k = None ∧
    rank <$> ratings after_vote !! k = Some RATING_RANK_DEFAULT)).
Proof.
  split.
  - pose proof (refresh_rank_tables BL_PHT settings req now now' db) as (_ & _ & Hcase).
    destruct (path (refresh_rank BL_PHT settings req now now' db)).
    + left. by rewrite Hcase.
    + destruct Hcase as [-> _]. destruct k as [u t].
      rewrite persist_rank_lookup.
      case_decide; [|by left].
      destruct (calc_rep _ _ _ !! Content t); [|by left].
      destruct (ratings db !! (u, t)); simpl; [by left|by right].
  - destruct (post_vote_frame int_beyond_ascii vreq db) as (_ & _ & _ & _ & Hrs).
    destruct (Hrs k) as [->|(r' & -> & Hrank)]; [by left|].
    destruct (ratings db !! k) as [r|]; simpl in *.
    + left. by rewrite Hrank.
    + right. by rewrite Hrank.
Qed.

End endpoint_claims.

(** C8: a vote of +1 or -1 by a known actor on an existing post adds that
    delta to the stored vote of the (actor, target) row, which counts as 0
    when the row is absent, stores the row and answers with the new total;
    every rank, every other row, [CalcTime] and [Post] stay as they were. *)
Theorem post_vote_additive (int_beyond_ascii : string → option Z)
    (req : Request) (db : DB) (usr : string) (target : Z)
    (p : Post) (post_param vote_param : string) (delta : Z) :
  GET req !! "vote" = Some vote_param →
  GET req !! "post" = Some post_param →
  py_int int_beyond_ascii post_param = Some target →
  posts db !! target = Some p →
  session_key req = Some usr → usr ∈ sessions db →
  py_int int_beyond_ascii vote_param = Some delta →
  delta = 1 ∨ delta = -1 →
  let old := from_option vote 0 (ratings db !! (usr, target)) in
  let db' := (post_vote int_beyond_ascii req db).2 in
  (post_vote int_beyond_ascii req db).1 = inr (JsonVote (old + delta)) ∧
  vote <$> ratings db' !! (usr, target) = Some (old + delta) ∧
  (∀ k, k ≠ (usr, target) → ratings db' !! k = ratings db !! k) ∧
  (∀ k r, ratings db !! k = Some r → rank <$> ratings db' !! k = Some (rank r)) ∧
  calctimes db' = calctimes db ∧ posts db' = posts db.
Proof.
  intros Hv Hp Hpk Hpost Hk Hin Hn Hdelta old db'.
  pose proof (post_vote_success int_beyond_ascii req db usr target p post_param vote_param delta
                Hv Hp Hpk Hpost Hk Hin Hn) as Heq.
  assert (Hstep : vote_step delta = delta).
  { unfold vote_step. destruct Hdelta as [-> | ->]; by case_decide. }
  rewrite Hstep in Heq. subst db'. rewrite Heq. simpl.
  split_and!; [done | by rewrite lookup_insert_eq | | | done..].
  - intros k Hne. by rewrite lookup_insert_ne.
  - intros k r Hr. destruct (decide (k = (usr, target))) as [->|Hne].
    + rewrite lookup_insert_eq. simpl. by rewrite Hr.
    + rewrite lookup_insert_ne by done. by rewrite Hr.
Qed.

Lemma post_vote_additive_witness :
  (post_vote none_beyond_ascii (vote_request "B" "1" "-1") sample_db).1 = inr (JsonVote 4) ∧
  (post_vote none_beyond_ascii (vote_request "C" "3" "1") sample_db).1 = inr (JsonVote 1).
Proof.
  split.
  - apply (post_vote_additive none_beyond_ascii (vote_request "B" "1" "-1") sample_db "B" 1
             {| session := "A"; thread := None; board := "b" |} "1" "-1" (-1));
      [reflexivity.. | by vm_compute | reflexivity | by right].
  - apply (post_vote_additive none_beyond_ascii (vote_request "C" "3" "1") sample_db "C" 3
             {| session := "B"; thread := None; board := "b" |} "3" "1" 1);
      [reflexivity.. | by vm_compute | reflexivity | by left].
Defined.

(** C9: for a vote parameter that reads as the integer [n], the stored vote
    goes up by 1 when [n] is exactly 1 and down by 1 for every other [n];
    no other check is made on [n]. *)
Theorem post_vote_step_unvalidated (int_beyond_ascii : string → option Z)
    (req : Request) (db : DB) (usr : string)
    (target : Z) (p : Post) (post_param vote_param : string) (n : Z) :
  GET req !! "vote" = Some vote_param →
  GET req !! "post" = Some post_param →
  py_int int_beyond_ascii post_param = Some target →
  posts db !! target = Some p →
  session_key req = Some usr → usr ∈ sessions db →
  py_int int_beyond_ascii vote_param = Some n →
  let old := from_option vote 0 (ratings db !! (usr, target)) in
  let db' := (post_vote int_beyond_ascii req db).2 in
  (n = 1 →
     (post_vote int_beyond_ascii req db).1 = inr (JsonVote (old + 1)) ∧
     vote <$> ratings db' !! (usr, target) = Some (old + 1)) ∧
  (n ≠ 1 →
     (post_vote int_beyond_ascii req db).1 = inr (JsonVote (old - 1)) ∧
     vote <$> ratings db' !! (usr, target) = Some (old - 1)).
Proof.
  intros Hv Hp Hpk Hpost Hk Hin Hn old db'.
  pose proof (post_vote_success int_beyond_ascii req db usr target p post_param vote_param n
                Hv Hp Hpk Hpost Hk Hin Hn) as Heq.
  subst db'. rewrite Heq. simpl. unfold vote_step.
  split; intros H1; case_decide; try done;
    (split; [done | by rewrite lookup_insert_eq]).
Qed.

Lemma post_vote_step_unvalidated_witness :
  (post_vote none_beyond_ascii (vote_request "B" "1" "2") sample_db).1 = inr (JsonVote 4) ∧
  (post_vote none_beyond_ascii (vote_request "B" "1" "0") sample_db).1 = inr (JsonVote 4) ∧
  (post_vote none_beyond_ascii (vote_request "B" "1" "-5") sample_db).1 = inr (JsonVote 4) ∧
  (post_vote none_beyond_ascii (vote_request "B" "1" "1") sample_db).1 = inr (JsonVote 6).
Proof.
  split_and!.
  - apply (post_vote_step_unvalidated none_beyond_ascii (vote_request "B" "1" "2") sample_db "B" 1
             {| session := "A"; thread := None; board := "b" |} "1" "2" 2);
      [reflexivity.. | by vm_compute | reflexivity | lia].
  - apply (post_vote_step_unvalidated none_beyond_ascii (vote_request "B" "1" "0") sample_db "B" 1
             {| session := "A"; thread := None; board := "b" |} "1" "0" 0);
      [reflexivity.. | by vm_compute | reflexivity | lia].
  - apply (post_vote_step_unvalidated none_beyond_ascii (vote_request "B" "1" "-5") sample_db "B" 1
             {| session := "A"; thread := None; board := "b" |} "1" "-5" (-5));
      [reflexivity.. | by vm_compute | reflexivity | lia].
  - apply (post_vote_step_unvalidated none_beyond_ascii (vote_request "B" "1" "1") sample_db "B" 1
             {| session := "A"; thread := None; board := "b" |} "1" "1" 1);
      [reflexivity.. | by vm_compute | reflexivity | lia].
Defined.

Lemma vote_edge_weight_witness :
  adj (build_graph sample_db) !! (Actor "B", Content 1) = Some 5 ∧
  adj (build_graph sample_db) !! (Actor "C", Content 1) = Some (-20) ∧
  ∃ w w', adj (build_graph sample_db) !! (Actor "B", Content 1) = Some w ∧
          adj (build_graph sample_db) !! (Actor "C", Content 2) = Some w' ∧
          Z.abs w' = 10 * Z.abs w.
Proof.
  destruct (vote_edge_weight sample_db "B" 1
              {| rank := (1 # 2)%Q; vote := 5 |} eq_refl) as (Hpos & _ & Hratio).
  destruct (vote_edge_weight sample_db "C" 1
              {| rank := (-1 # 4)%Q; vote := -2 |} eq_refl) as (_ & Hneg & _).
  split_and!.
  - apply Hpos. simpl. lia.
  - apply Hneg. simpl. lia.
  - apply (Hratio "C" 2 {| rank := 0%Q; vote := -5 |}); [reflexivity | simpl; lia | reflexivity].
Defined.

Lemma calc_rep_keys_witness :
  calc_rep half_everywhere (build_graph sample_db) (Actor "A") !! Actor "A" = None ∧
  calc_rep half_everywhere (build_graph sample_db) (Actor "A") !! Content 1
    = Some (1 # 2)%Q.
Proof.
  destruct (calc_rep_keys half_everywhere (build_graph sample_db) (Actor "A"))
    as [Hseed Hall].
  split; [exact Hseed|].
  apply (Hall (Content 1)).
  - apply (post_in_graph sample_db 1 {| session := "A"; thread := None; board := "b" |}).
    reflexivity.
  - discriminate.
Defined.

(** ** Annotation and the listing queries *)

Lemma elem_of_multi_annotate (usr : string) (threads : list (Z * Post))
    (db : DB) (a : Annotated) :
  a ∈ multi_annotate usr threads db ↔
    ∃ row, row ∈ threads ∧ a = annotate (ratings db) usr row.
Proof.
  unfold multi_annotate. rewrite list_elem_of_fmap.
  split; intros (row & H1 & H2); exists row; by split.
Qed.

(** The annotations of an item, from the [Rating] row of the viewer. *)
Lemma multi_annotate_fields (usr : string) (threads : list (Z * Post))
    (db : DB) (a : Annotated) :
  a ∈ multi_annotate usr threads db →
  ann_rank a = from_option rank 0%Q (ratings db !! (usr, ann_pk a)) ∧
  ann_vote a = vote <$> ratings db !! (usr, ann_pk a).
Proof. intros (row & _ & ->)%elem_of_multi_annotate. done. Qed.

(** The opening post of a thread page goes through [single_annotate]: a
    missing row is an error there, and the viewer's own thread gets no
    annotation. *)
Lemma single_annotate_absent (usr : string) (pk : Z) (p : Post) (db : DB) :
  ratings db !! (usr, pk) = None →
  single_annotate usr (pk, p) db =
    if decide (usr = session p) then inr (pk, p, None) else inl DoesNotExist.
Proof.
  intros Hnone. unfold single_annotate. cbn [fst snd].
  destruct (decide (usr = session p)) as [Heq|Hne].
  - by rewrite decide_False by (intros Hc; by apply Hc).
  - rewrite decide_True by done. by rewrite Hnone.
Qed.

Lemma elem_of_threads_queryset (usr brd : string) (db : DB) (a : Annotated) :
  a ∈ threads_queryset usr brd db ↔
    a ∈ multi_annotate usr (board_threads brd db) db ∧
    (session (ann_post a) = usr ∨ (0 < ann_rank a)%Q).
Proof.
  unfold threads_queryset.
  rewrite merge_sort_Permutation, list_elem_of_filter, Qltb_lt. tauto.
Qed.

Lemma elem_of_replies_queryset (usr : string) (thread_id : Z) (db : DB)
    (a : Annotated) :
  a ∈ replies_queryset usr thread_id db ↔
    a ∈ multi_annotate usr (post_set thread_id db) db ∧
    ¬ (ann_rank a < SHADOWBAN_THRESHOLD)%Q.
Proof.
  unfold replies_queryset. rewrite list_elem_of_filter.
  rewrite <- Qltb_lt.
  destruct (Qltb (ann_rank a) SHADOWBAN_THRESHOLD); intuition congruence.
Qed.

Lemma paginator_page_subseteq {A} (l page : list A) (per_page : nat) (number : Z) :
  paginator_page l per_page number = Some page → page ⊆ l.
Proof.
  unfold paginator_page. repeat case_decide; [done..|]. intros [= <-].
  intros x Hx. apply subseteq_take in Hx. by apply subseteq_drop in Hx.
Qed.

Section view_facts.

Variable BL_PHT : DiGraph → Node → Node → Node → Q.

Lemma list_threads_rendered (settings : Settings) (req : Request) (brd : string)
    (pagenum now now' : Z) (db : DB) (td : list (Annotated * list Annotated)) :
  (list_threads BL_PHT settings req brd pagenum now now' db).1 = RenderThreads td →
  let r := refresh_rank BL_PHT settings req now now' db in
  ∀ t previews, (t, previews) ∈ td →
    t ∈ threads_queryset (user r) brd (db_after r) ∧
    previews = take 4 (replies_queryset (user r) (ann_pk t) (db_after r)).
Proof.
  unfold list_threads. case_decide; [|done].
  destruct (paginator_page _ 10%nat pagenum) as [page|] eqn:Epage; [|done].
  cbn [fst]. intros [= <-] t previews Hin.
  apply list_elem_of_fmap in Hin as (t' & Heq & Hin). injection Heq as -> ->.
  split; [|done]. by eapply paginator_page_subseteq.
Qed.

Lemma get_thread_rendered (settings : Settings) (req : Request) (thread_id : Z)
    (brd : string) (now now' : Z) (db : DB)
    (thr : Z * Post * option (Q * Z)) (shown : list Annotated) :
  (get_thread BL_PHT settings req thread_id brd now now' db).1 = RenderThread thr shown →
  let r := refresh_rank BL_PHT settings req now now' db in
  shown = replies_queryset (user r) thread_id (db_after r).
Proof.
  unfold get_thread. case_decide; [|done].
  destruct (posts db !! thread_id); [|done].
  destruct (single_annotate _ _ _); [done|].
  cbn [fst]. intros Heq. by injection Heq as _ <-.
Qed.

End view_facts.

(** ** Pages *)

Lemma num_pages_covers {A} (l : list A) (per_page i : nat) :
  (0 < per_page)%nat → (i < length l)%nat →
  (i / per_page + 1 ≤ num_pages l per_page)%nat.
Proof.
  intros Hper Hi. unfold num_pages.
  pose proof (Nat.div_mod_eq i per_page) as Hdiv.
  pose proof (Nat.mod_upper_bound i per_page ltac:(lia)) as Hmod.
  pose proof (Nat.div_mod_eq (Nat.max 1 (length l) + per_page - 1) per_page) as HdivN.
  pose proof (Nat.mod_upper_bound (Nat.max 1 (length l) + per_page - 1) per_page
                ltac:(lia)) as HmodN.
  nia.
Qed.

Lemma paginator_page_at {A} (l : list A) (per_page i : nat) (x : A) :
  (0 < per_page)%nat → l !! i = Some x →
  ∃ page, paginator_page l per_page (Z.of_nat (i / per_page) + 1) = Some page ∧
          page !! (i mod per_page)%nat = Some x.
Proof.
  intros Hper Hx.
  assert (Hi : (i < length l)%nat) by (by eapply lookup_lt_Some).
  pose proof (num_pages_covers l per_page i Hper Hi) as Hn.
  unfold paginator_page.
  rewrite decide_False by lia. rewrite decide_False by lia.
  eexists. split; [done|].
  pose proof (Nat.mod_upper_bound i per_page ltac:(lia)) as Hmod.
  rewrite lookup_take_lt by done. rewrite lookup_drop.
  replace (Z.to_nat (Z.of_nat (i / per_page) + 1) - 1)%nat
    with (i / per_page)%nat by lia.
  pose proof (Nat.div_mod_eq i per_page) as Hdiv.
  replace (i / per_page * per_page + i mod per_page)%nat with i by lia.
  done.
Qed.

Lemma paginator_page_first {A} (l : list A) (per_page : nat) :
  (0 < per_page)%nat → is_Some (paginator_page l per_page 1).
Proof.
  intros Hper. unfold paginator_page. rewrite decide_False by lia.
  assert (1 ≤ num_pages l per_page)%nat.
  { unfold num_pages. apply Nat.div_le_lower_bound; lia. }
  rewrite decide_False by lia. by eexists.
Qed.

Lemma paginator_page_invalid {A} (l : list A) (per_page : nat) (number : Z) :
  number < 1 ∨ Z.of_nat (num_pages l per_page) < number →
  paginator_page l per_page number = None.
Proof.
  intros Hbad. unfold paginator_page.
  destruct Hbad; [by rewrite decide_True|].
  case_decide; [done|]. by rewrite decide_True.
Qed.

(** The pages of a list: for a positive page size, the [i]-th item is on page
    [i / per_page + 1], at position [i mod per_page]: that page exists, and
    no page is longer than the page size. Page 1 exists even for an empty
    list; a page number below 1 or above the number of pages is invalid. *)
Theorem paginator_page_covers {A} (l : list A) (per_page : nat) :
  (0 < per_page)%nat →
  (∀ i x, l !! i = Some x →
     ∃ page, paginator_page l per_page (Z.of_nat (i / per_page) + 1) = Some page ∧
             page !! (i mod per_page)%nat = Some x) ∧
  (∀ number page, paginator_page l per_page number = Some page →
     (length page ≤ per_page)%nat ∧
     1 <= number <= Z.of_nat (num_pages l per_page)) ∧
  is_Some (paginator_page l per_page 1) ∧
  (∀ number, number < 1 ∨ Z.of_nat (num_pages l per_page) < number →
     paginator_page l per_page number = None).
Proof.
  intros Hper. split_and!.
  - intros i x Hx. by apply paginator_page_at.
  - intros number page. unfold paginator_page.
    repeat case_decide; [done..|]. intros [= <-].
    rewrite length_take. lia.
  - by apply paginator_page_first.
  - intros number. apply paginator_page_invalid.
Qed.

Lemma paginator_page_covers_witness :
  paginator_page [10; 20; 30; 40; 50] 2 3 = Some [50] ∧
  paginator_page [10; 20; 30; 40; 50] 2 4 = None ∧
  is_Some (paginator_page (@nil Z) 2 1).
Proof.
  destruct (paginator_page_covers [10; 20; 30; 40; 50] 2%nat) as (Hc & _ & _ & Hbad);
    [lia|].
  destruct (paginator_page_covers (@nil Z) 2%nat) as (_ & _ & Hfirst & _); [lia|].
  split_and!.
  - destruct (Hc 4%nat 50 eq_refl) as (page & Hpage & _). reflexivity.
  - apply Hbad. right. by vm_compute.
  - exact Hfirst.
Defined.

Section listing_claims.

Variable BL_PHT : DiGraph → Node → Node → Node → Q.


End listing_claims.



(** C7 (amended): for a viewer and a post with no [Rating] row, the rank
    that [multi_annotate] attaches is exactly 0: on every thread the thread
    list keeps, every reply the reply filter keeps and every thread the
    discovery view offers, so each of them carries a number as its rank.
    The opening post of a thread page is annotated by [single_annotate]
    instead, which attaches no rank and no vote to a thread that the viewer
    wrote, and [get_thread] renders it so. *)
Theorem absent_rank_is_zero (usr : string) (db : DB) (a : Annotated) :
  ratings db !! (usr, ann_pk a) = None →
  (∀ threads, a ∈ multi_annotate usr threads db → ann_rank a = 0%Q) ∧
  (∀ brd, a ∈ threads_queryset usr brd db → ann_rank a = 0%Q) ∧
  (∀ thread_id, a ∈ replies_queryset usr thread_id db → ann_rank a = 0%Q) ∧
  (∀ brd, a ∈ stranded_threads usr brd db → ann_rank a = 0%Q) ∧
  (∀ p, session p = usr →
     single_annotate usr (ann_pk a, p) db = inr (ann_pk a, p, None)) ∧
  (∀ BL_PHT settings req thread_id brd now now' db0 p,
     brd ∈ boards db0 → posts db0 !! thread_id = Some p →
     let r := refresh_rank BL_PHT settings req now now' db0 in
     session p = user r →
     (get_thread BL_PHT settings req thread_id brd now now' db0).1 =
       RenderThread (thread_id, p, None)
         (replies_queryset (user r) thread_id (db_after r))).
Proof.
  intros Hnone.
  assert (Hany : ∀ threads, a ∈ multi_annotate usr threads db → ann_rank a = 0%Q).
  { intros threads [Hrank _]%multi_annotate_fields. by rewrite Hrank, Hnone. }
  assert (Hown : ∀ u pk p d, session p = u →
            single_annotate u (pk, p) d = inr (pk, p, None)).
  { intros u pk p d Hs. unfold single_annotate. cbn [fst snd].
    by rewrite decide_False by (intros Hc; by apply Hc). }
  split_and!.
  - done.
  - intros brd [Hin _]%elem_of_threads_queryset. by eapply Hany.
  - intros thread_id [Hin _]%elem_of_replies_queryset. by eapply Hany.
  - intros brd Hin. unfold stranded_threads in Hin.
    apply list_elem_of_filter in Hin as [_ Hin]. by eapply Hany.
  - intros p Hs. by apply Hown.
  - intros BL_PHT settings req thread_id brd now now' db0 p Hb Hp r Hs.
    unfold get_thread. rewrite decide_True by done. rewrite Hp. fold r.
    by rewrite (Hown (user r) thread_id p (db_after r) Hs).
Qed.

Lemma absent_rank_is_zero_witness :
  ann_rank (annotate (ratings sample_db) "A"
              (1, {| session := "A"; thread := None; board := "b" |})) = 0%Q ∧
  single_annotate "A" (1, {| session := "A"; thread := None; board := "b" |})
    sample_db
    = inr (1, {| session := "A"; thread := None; board := "b" |}, None).
Proof.
  pose (own_thread := annotate (ratings sample_db) "A"
                        (1, {| session := "A"; thread := None; board := "b" |})).
  destruct (absent_rank_is_zero "A" sample_db own_thread)
    as (_ & Hlisted & _ & _ & Hown & _).
  - reflexivity.
  - split.
    + apply (Hlisted "b"). by_evaluation.
    + apply (Hown {| session := "A"; thread := None; board := "b" |}). reflexivity.
Defined.

(** C7, as the specification words it, fails on the sample database: A has
    no [Rating] row for thread 1, which A wrote, and A's thread page shows
    the opening post without any rank, not with the rank 0. *)
Lemma opening_post_rank_counterexample :
  ratings sample_db !! ("A", 1) = None ∧
  (get_thread half_everywhere no_debug (request_of "A" ∅) 1 "b"
     (timedelta_hours 2) (timedelta_hours 2 + 1) sample_db).1
    = RenderThread (1, {| session := "A"; thread := None; board := "b" |}, None)
        (replies_queryset "A" 1 sample_db) ∧
  ¬ opening_post_rank_rule "A" sample_db 1
      {| session := "A"; thread := None; board := "b" |}.
Proof.
  split_and!.
  - reflexivity.
  - by vm_compute.
  - intros Hrule. destruct (Hrule eq_refl) as [v Hv].
    vm_compute in Hv. discriminate Hv.
Qed.

(** C10: for a viewer and a post with no [Rating] row, [multi_annotate]
    attaches the rank 0 and no vote at all; the vote is absent exactly when
    the row is, also on the threads that the thread list orders and shows. *)
Theorem absent_vote_is_null (usr : string) (db : DB) (a : Annotated) :
  (∀ threads, a ∈ multi_annotate usr threads db →
     (ratings db !! (usr, ann_pk a) = None → ann_rank a = 0%Q ∧ ann_vote a = None) ∧
     (ann_vote a = None ↔ ratings db !! (usr, ann_pk a) = None)) ∧
  (∀ brd, a ∈ threads_queryset usr brd db →
     ratings db !! (usr, ann_pk a) = None → ann_rank a = 0%Q ∧ ann_vote a = None).
Proof.
  assert (Hany : ∀ threads, a ∈ multi_annotate usr threads db →
     (ratings db !! (usr, ann_pk a) = None → ann_rank a = 0%Q ∧ ann_vote a = None) ∧
     (ann_vote a = None ↔ ratings db !! (usr, ann_pk a) = None)).
  { intros threads [Hrank Hvote]%multi_annotate_fields. rewrite Hrank, Hvote.
    split.
    - by intros ->.
    - by rewrite fmap_None. }
  split; [done|].
  intros brd [Hin _]%elem_of_threads_queryset Hnone.
  by apply (Hany _ Hin).
Qed.

Lemma absent_vote_is_null_witness :
  ∃ td t previews,
    (list_threads half_everywhere no_debug (request_of "A" ∅) "b" 1
       (timedelta_hours 2) (timedelta_hours 2 + 1) sample_db).1 = RenderThreads td ∧
    (t, previews) ∈ td ∧ ann_rank t = 0%Q ∧ ann_vote t = None.
Proof.
  pose (own_thread := annotate (ratings sample_db) "A"
                        (1, {| session := "A"; thread := None; board := "b" |})).
  exists [(own_thread, take 4 (replies_queryset "A" 1 sample_db))],
         own_thread, (take 4 (replies_queryset "A" 1 sample_db)).
  split; [by vm_compute|]. split; [apply list_elem_of_singleton; reflexivity|].
  destruct (absent_vote_is_null "A" sample_db own_thread) as [_ Hlisted].
  apply (Hlisted "b"); [by_evaluation | reflexivity].
Defined.

(** * Further properties of the code *)

(** ** The shape of the built graph *)

(** After the loop over the posts: every edge, by its source. *)
Lemma post_edges_adj (ps : gmap Z Post) :
  let G := map_fold add_post_edges empty_graph ps in
  (∀ t u, adj G !! (Content t, u) =
     match ps !! t with
     | Some p => if decide (u = Actor (session p)) then Some POST_TO_USER_VOTE else None
     | None => None
     end) ∧
  (∀ a b, adj G !! (Actor a, Actor b) = None) ∧
  (∀ a t, adj G !! (Actor a, Content t) =
     match ps !! t with
     | Some p => if decide (session p = a) then Some MINIMAL_AUTHOR_VOTE else None
     | None => None
     end).
Proof.
  apply (map_fold_weak_ind (λ G ps,
    (∀ t u, adj G !! (Content t, u) =
       match ps !! t with
       | Some p => if decide (u = Actor (session p)) then Some POST_TO_USER_VOTE else None
       | None => None
       end) ∧
    (∀ a b, adj G !! (Actor a, Actor b) = None) ∧
    (∀ a t, adj G !! (Actor a, Content t) =
       match ps !! t with
       | Some p => if decide (session p = a) then Some MINIMAL_AUTHOR_VOTE else None
       | None => None
       end))).
  - unfold empty_graph. cbn beta iota delta [adj].
    split_and!; intros; by rewrite !lookup_empty.
  - intros i x m G Hfresh (IHc & IHaa & IHac). unfold add_post_edges. split_and!.
    + intros t u. rewrite adj_add_edge_ne by done.
      destruct (decide (i = t)) as [->|Hne].
      * rewrite lookup_insert_eq. case_decide as Hu.
        -- subst u. by rewrite adj_add_edge_eq.
        -- rewrite adj_add_edge_ne by congruence. rewrite IHc. by rewrite Hfresh.
      * rewrite lookup_insert_ne by done.
        rewrite adj_add_edge_ne by congruence. apply IHc.
    + intros a b. rewrite !adj_add_edge_ne by done. apply IHaa.
    + intros a t. destruct (decide (i = t)) as [->|Hne].
      * rewrite lookup_insert_eq. case_decide as Ha.
        -- subst a. by rewrite adj_add_edge_eq.
        -- rewrite !adj_add_edge_ne by congruence. rewrite IHac. by rewrite Hfresh.
      * rewrite lookup_insert_ne by done.
        rewrite !adj_add_edge_ne by congruence. apply IHac.
Qed.

(** The loop over the ratings adds no edge between two actors. *)
Lemma rating_edges_actor_actor (G0 : DiGraph) (rs : gmap (string * Z) Rating)
    (a b : string) :
  adj (map_fold add_rating_edge G0 rs) !! (Actor a, Actor b)
    = adj G0 !! (Actor a, Actor b).
Proof.
  apply (map_fold_weak_ind (λ G _,
    adj G !! (Actor a, Actor b) = adj G0 !! (Actor a, Actor b))).
  - done.
  - intros [u t] x m G _ IH. unfold add_rating_edge. cbn [fst snd].
    by rewrite adj_add_edge_ne.
Qed.

(** The nodes that a loop of [add_edge] calls adds to a graph. *)
Lemma post_edges_nodes (ps : gmap Z Post) (n : Node) :
  n ∈ nodes (map_fold add_post_edges empty_graph ps) ↔
    ∃ pk p, ps !! pk = Some p ∧ (n = Content pk ∨ n = Actor (session p)).
Proof.
  apply (map_fold_weak_ind (λ G ps, n ∈ nodes G ↔
    ∃ pk p, ps !! pk = Some p ∧ (n = Content pk ∨ n = Actor (session p)))).
  - simpl. split; [by intros ?%elem_of_nil|]. intros (pk & p & H & _).
    by rewrite lookup_empty in H.
  - intros i x m G Hfresh IH. unfold add_post_edges.
    rewrite !elem_of_add_edge, IH. split.
    + intros [->|[->|[->|[->|(pk & p & Hp & Hn)]]]].
      * exists i, x. rewrite lookup_insert_eq. auto.
      * exists i, x. rewrite lookup_insert_eq. auto.
      * exists i, x. rewrite lookup_insert_eq. auto.
      * exists i, x. rewrite lookup_insert_eq. auto.
      * exists pk, p. rewrite lookup_insert_ne by congruence. auto.
    + intros (pk & p & Hp & Hn). destruct (decide (i = pk)) as [->|Hne].
      * rewrite lookup_insert_eq in Hp. injection Hp as ->.
        destruct Hn as [->| ->]; auto.
      * rewrite lookup_insert_ne in Hp by done.
        do 4 right. by exists pk, p.
Qed.

Lemma rating_edges_nodes (G0 : DiGraph) (rs : gmap (string * Z) Rating) (n : Node) :
  n ∈ nodes (map_fold add_rating_edge G0 rs) ↔
    n ∈ nodes G0 ∨ ∃ u t r, rs !! (u, t) = Some r ∧ (n = Actor u ∨ n = Content t).
Proof.
  apply (map_fold_weak_ind (λ G rs, n ∈ nodes G ↔
    n ∈ nodes G0 ∨ ∃ u t r, rs !! (u, t) = Some r ∧ (n = Actor u ∨ n = Content t))).
  - split; [by left|]. intros [H|(u & t & r & H & _)]; [done|].
    by rewrite lookup_empty in H.
  - intros [u' t'] x m G Hfresh IH. unfold add_rating_edge. cbn [fst snd].
    rewrite elem_of_add_edge, IH. split.
    + intros [->|[->|[H|(u & t & r & Hr & Hn)]]].
      * right. exists u', t', x. rewrite lookup_insert_eq. auto.
      * right. exists u', t', x. rewrite lookup_insert_eq. auto.
      * by left.
      * right. exists u, t, r. rewrite lookup_insert_ne by congruence. auto.
    + intros [H|(u & t & r & Hr & Hn)]; [auto|].
      destruct (decide ((u', t') = (u, t))) as [[= -> ->]|Hne].
      * destruct Hn as [->| ->]; auto.
      * rewrite lookup_insert_ne in Hr by done.
        do 3 right. by exists u, t, r.
Qed.

(** X1: in the built graph the edges that leave a post are exactly one: the
    edge into its creator, of weight [POST_TO_USER_VOTE]. *)
Theorem content_out_edges (db : DB) (t : Z) (u : Node) (w : Z) :
  adj (build_graph db) !! (Content t, u) = Some w ↔
    ∃ p, posts db !! t = Some p ∧ u = Actor (session p) ∧ w = POST_TO_USER_VOTE.
Proof.
  unfold build_graph.
  destruct (rating_edges_weights
              (map_fold add_post_edges empty_graph (posts db)) (ratings db))
    as (_ & _ & Hc).
  destruct (post_edges_adj (posts db)) as (Hp & _ & _).
  rewrite Hc, Hp. destruct (posts db !! t) as [p|].
  - case_decide as Hu.
    + split.
      * intros [= <-]. by exists p.
      * intros (p' & [= <-] & _ & ->). done.
    + split; [done|]. intros (p' & [= <-] & -> & _). done.
  - split; [done|]. by intros (p' & [=] & _).
Qed.

(** X2: the edges that leave an actor all lead to posts. The edge into a
    post exists exactly when the actor has a [Rating] row for it or wrote
    it, and its weight is the amplified vote of the row when there is one,
    [MINIMAL_AUTHOR_VOTE] otherwise. *)
Theorem actor_out_edges (db : DB) (a : string) (v : Node) (w : Z) :
  adj (build_graph db) !! (Actor a, v) = Some w ↔
    ∃ t, v = Content t ∧
      match ratings db !! (a, t) with
      | Some r => w = amplify (vote r)
      | None => ∃ p, posts db !! t = Some p ∧ session p = a ∧ w = MINIMAL_AUTHOR_VOTE
      end.
Proof.
  unfold build_graph.
  destruct (rating_edges_weights
              (map_fold add_post_edges empty_graph (posts db)) (ratings db))
    as (_ & Hac & _).
  destruct (post_edges_adj (posts db)) as (_ & Haa & Hpost).
  destruct v as [b|t].
  - rewrite rating_edges_actor_actor, Haa. split; [done|].
    by intros (t & [=] & _).
  - rewrite Hac. split.
    + intros Hw. exists t. split; [done|].
      destruct (ratings db !! (a, t)) as [r|].
      * by injection Hw as <-.
      * rewrite Hpost in Hw. destruct (posts db !! t) as [p|]; [|done].
        case_decide; [|done]. injection Hw as <-. by exists p.
    + intros (t' & [= <-] & Hw).
      destruct (ratings db !! (a, t)) as [r|]; [by subst w|].
      destruct Hw as (p & Hp & Hs & ->). rewrite Hpost, Hp. by rewrite decide_True.
Qed.

Lemma build_graph_nodes_iff (db : DB) (n : Node) :
  n ∈ nodes (build_graph db) ↔
    (∃ pk p, posts db !! pk = Some p ∧ (n = Content pk ∨ n = Actor (session p))) ∨
    (∃ u t r, ratings db !! (u, t) = Some r ∧ (n = Actor u ∨ n = Content t)).
Proof. unfold build_graph. by rewrite rating_edges_nodes, post_edges_nodes. Qed.

(** X3: the nodes of the built graph are the posts, their creators, and the
    users and targets of the [Rating] rows; none is listed twice. *)
Theorem build_graph_nodes (db : DB) (n : Node) :
  NoDup (nodes (build_graph db)) ∧
  (n ∈ nodes (build_graph db) ↔
     (∃ pk p, posts db !! pk = Some p ∧ (n = Content pk ∨ n = Actor (session p))) ∨
     (∃ u t r, ratings db !! (u, t) = Some r ∧ (n = Actor u ∨ n = Content t))).
Proof.
  split; [apply build_graph_nodes_NoDup|apply build_graph_nodes_iff].
Qed.

Lemma content_out_edges_witness :
  adj (build_graph sample_db) !! (Content 2, Actor "B") = Some 77777 ∧
  adj (build_graph sample_db) !! (Content 2, Actor "A") = None.
Proof.
  split.
  - apply content_out_edges.
    by exists {| session := "B"; thread := Some 1; board := "b" |}.
  - destruct (adj (build_graph sample_db) !! (Content 2, Actor "A")) as [w|] eqn:E;
      [|reflexivity].
    apply content_out_edges in E as (p & Hp & Hu & _).
    injection Hp as <-. discriminate Hu.
Defined.

Lemma actor_out_edges_witness :
  adj (build_graph sample_db) !! (Actor "C", Content 2) = Some (-50) ∧
  adj (build_graph sample_db) !! (Actor "B", Content 3) = Some 1.
Proof.
  split.
  - apply actor_out_edges. exists 2. split; reflexivity.
  - apply actor_out_edges. exists 3. split; [reflexivity|].
    by exists {| session := "B"; thread := None; board := "b" |}.
Defined.

Lemma build_graph_nodes_witness :
  Actor "C" ∈ nodes (build_graph sample_db) ∧
  Content 3 ∈ nodes (build_graph sample_db).
Proof.
  split.
  - apply build_graph_nodes. right.
    exists "C", 2, {| rank := 0%Q; vote := -5 |}. split; [reflexivity|by left].
  - apply build_graph_nodes. left.
    exists 3, {| session := "B"; thread := None; board := "b" |}.
    split; [reflexivity|by left].
Defined.

(** ** More on [refresh_rank] *)

Lemma ensure_session_new (req : Request) (db : DB) :
  (session_key req = None ∨ ∃ k, session_key req = Some k ∧ k ∉ sessions db) →
  ensure_session req db =
    (new_session_key req,
     set_sessions ({[new_session_key req]} ∪ sessions db) db).
Proof.
  unfold ensure_session. intros [->|(k & -> & Hk)]; [done|].
  by rewrite decide_False.
Qed.

Lemma ensure_session_sessions (req : Request) (db : DB) :
  (ensure_session req db).1 ∈ sessions (ensure_session req db).2 ∧
  sessions db ⊆ sessions (ensure_session req db).2.
Proof.
  unfold ensure_session. repeat case_match; simpl; set_solver.
Qed.

Section refresh_more.

Variable BL_PHT : DiGraph → Node → Node → Node → Q.

(** On the recomputing path every post gets the viewer's row, with the
    score just computed and the vote the row had. *)
Lemma recomputed_row (settings : Settings) (req : Request) (now now' : Z)
    (db : DB) (pk : Z) (p : Post) :
  let r := refresh_rank BL_PHT settings req now now' db in
  path r = Recomputed → posts db !! pk = Some p →
  ratings (db_after r) !! (user r, pk) =
    Some {| rank := BL_PHT (build_graph db) (Actor (user r)) (Actor (user r)) (Content pk);
            vote := from_option vote RATING_VOTE_DEFAULT (ratings db !! (user r, pk)) |}.
Proof.
  intros r Hpath Hp.
  pose proof (refresh_rank_tables BL_PHT settings req now now' db) as (_ & _ & Hcase).
  fold r in Hcase. rewrite Hpath in Hcase. destruct Hcase as [-> _].
  rewrite persist_rank_lookup, decide_True by done.
  rewrite calc_rep_lookup, decide_True; [done|].
  split; [by eapply post_in_graph|done].
Qed.

(** X4: a request without a session key, or with a key that is not in the
    session table, is given the new session; when that session has no
    [CalcTime] row yet, the ranks are computed whatever the clock and the
    debug flag say, and the time of the computation is stored. *)
Theorem refresh_rank_new_session (settings : Settings) (req : Request)
    (now now' : Z) (db : DB) :
  (session_key req = None ∨ ∃ k, session_key req = Some k ∧ k ∉ sessions db) →
  calctimes db !! new_session_key req = None →
  let r := refresh_rank BL_PHT settings req now now' db in
  user r = new_session_key req ∧
  path r = Recomputed ∧
  sessions (db_after r) = {[new_session_key req]} ∪ sessions db ∧
  calctimes (db_after r) = <[new_session_key req := now']> (calctimes db).
Proof.
  intros Hnew Hct. unfold refresh_rank.
  rewrite (ensure_session_new req db Hnew).
  unfold calctime_get_or_create. cbn [calctimes set_sessions]. rewrite Hct.
  rewrite andb_false_r. cbn [andb user path db_after].
  split_and!; [done..|].
  cbn. apply map_eq. intros k. destruct (decide (new_session_key req = k)) as [->|Hne].
  - by rewrite lookup_alter_eq, !lookup_insert_eq.
  - by rewrite lookup_alter_ne, !lookup_insert_ne.
Qed.

(** X5: with [RANK_DEBUG] on, every call recomputes and stores the time,
    however recent the last computation is. *)
Theorem refresh_rank_debug (settings : Settings) (req : Request)
    (now now' : Z) (db : DB) :
  RANK_DEBUG settings = true →
  let r := refresh_rank BL_PHT settings req now now' db in
  path r = Recomputed ∧ calctimes (db_after r) !! user r = Some now'.
Proof.
  intros Hdebug r.
  pose proof (refresh_rank_tables BL_PHT settings req now now' db) as (_ & _ & Hcase).
  fold r in Hcase.
  assert (Hpath : path r = Recomputed).
  { subst r. unfold refresh_rank.
    destruct (ensure_session req db) as [usr db1].
    destruct (calctime_get_or_create usr now db1) as [[t created] db2].
    rewrite Hdebug. by rewrite andb_false_r. }
  rewrite Hpath in Hcase. by destruct Hcase.
Qed.

(** X6: a recomputation leaves the viewer with a [Rating] row for every
    post in the table: its rank is the score of the post in the graph built
    from the tables as they were, and its vote is the one the viewer had
    (the default when the row is new). *)
Theorem recompute_ranks_every_post (settings : Settings) (req : Request)
    (now now' : Z) (db : DB) (pk : Z) (p : Post) :
  let r := refresh_rank BL_PHT settings req now now' db in
  path r = Recomputed → posts db !! pk = Some p →
  rank <$> ratings (db_after r) !! (user r, pk) =
    Some (BL_PHT (build_graph db) (Actor (user r)) (Actor (user r)) (Content pk)) ∧
  vote <$> ratings (db_after r) !! (user r, pk) =
    Some (from_option vote 0 (ratings db !! (user r, pk))).
Proof.
  intros r Hpath Hp.
  pose proof (recomputed_row settings req now now' db pk p Hpath Hp) as Hrow.
  fold r in Hrow. by rewrite Hrow.
Qed.

(** X7: a call changes no row of another user, removes no row and no
    session, and leaves the posts and the boards alone. *)
Theorem refresh_rank_frame (settings : Settings) (req : Request)
    (now now' : Z) (db : DB) :
  let r := refresh_rank BL_PHT settings req now now' db in
  (∀ u t, u ≠ user r → ratings (db_after r) !! (u, t) = ratings db !! (u, t)) ∧
  (∀ k, is_Some (ratings db !! k) → is_Some (ratings (db_after r) !! k)) ∧
  sessions db ⊆ sessions (db_after r) ∧
  user r ∈ sessions (db_after r) ∧
  posts (db_after r) = posts db ∧ boards (db_after r) = boards db.
Proof.
  intros r.
  pose proof (refresh_rank_tables BL_PHT settings req now now' db) as (Hp & Hb & Hcase).
  fold r in Hp, Hb, Hcase.
  assert (Hs : sessions db ⊆ sessions (db_after r) ∧ user r ∈ sessions (db_after r)).
  { subst r. unfold refresh_rank.
    pose proof (ensure_session_sessions req db) as [Hin Hsub].
    destruct (ensure_session req db) as [usr db1]. simpl in Hin, Hsub.
    unfold calctime_get_or_create.
    destruct (calctimes db1 !! usr); repeat case_match; simpl; done. }
  destruct Hs as [Hsub Hin].
  split_and!; [| |done..].
  - intros u t Hne. destruct (path r).
    + by rewrite Hcase.
    + destruct Hcase as [-> _]. by rewrite persist_rank_lookup, decide_False.
  - intros [u t] Hsome. destruct (path r).
    + by rewrite Hcase.
    + destruct Hcase as [-> _]. rewrite persist_rank_lookup.
      case_decide; [|done]. by destruct (calc_rep _ _ _ !! Content t).
Qed.

End refresh_more.

Lemma refresh_rank_new_session_witness :
  let r := refresh_rank half_everywhere no_debug
             {| session_key := None; new_session_key := "D"; GET := ∅ |}
             5 6 sample_db in
  user r = "D" ∧ path r = Recomputed ∧ calctimes (db_after r) !! "D" = Some 6.
Proof.
  intros r.
  destruct (refresh_rank_new_session half_everywhere no_debug
              {| session_key := None; new_session_key := "D"; GET := ∅ |}
              5 6 sample_db) as (Hu & Hp & _ & Hc); [by left | reflexivity |].
  fold r in Hu, Hp, Hc. split_and!; [exact Hu | exact Hp |].
  rewrite Hc. apply lookup_insert_eq.
Defined.

Lemma refresh_rank_debug_witness :
  path (refresh_rank half_everywhere {| RANK_DEBUG := true |}
          (request_of "A" ∅) (timedelta_hours 2) (timedelta_hours 2 + 1) sample_db)
    = Recomputed.
Proof.
  apply (refresh_rank_debug half_everywhere {| RANK_DEBUG := true |}
           (request_of "A" ∅) (timedelta_hours 2) (timedelta_hours 2 + 1) sample_db).
  reflexivity.
Defined.

Lemma recompute_ranks_every_post_witness :
  let r := refresh_rank half_everywhere no_debug (request_of "A" ∅) 5 6 sample_db in
  rank <$> ratings (db_after r) !! ("A", 3) = Some (1 # 2)%Q ∧
  vote <$> ratings (db_after r) !! ("A", 3) = Some 0.
Proof.
  apply (recompute_ranks_every_post half_everywhere no_debug (request_of "A" ∅)
           5 6 sample_db 3 {| session := "B"; thread := None; board := "b" |}).
  - by vm_compute.
  - reflexivity.
Defined.

Lemma refresh_rank_frame_witness :
  let r := refresh_rank half_everywhere no_debug (request_of "A" ∅) 5 6 sample_db in
  ratings (db_after r) !! ("B", 1) = Some {| rank := (1 # 2)%Q; vote := 5 |} ∧
  is_Some (ratings (db_after r) !! ("A", 4)).
Proof.
  intros r.
  destruct (refresh_rank_frame half_everywhere no_debug (request_of "A" ∅)
              5 6 sample_db) as (Hother & Hkeep & _).
  fold r in Hother, Hkeep. split.
  - rewrite (Hother "B" 1); [reflexivity|]. subst r. by vm_compute.
  - apply Hkeep. by eexists.
Defined.

(** ** More on the listing views *)

Lemma rank_desc_total : Total rank_desc.
Proof.
  intros a b. unfold rank_desc. rewrite !Qle_bool_iff.
  destruct (Qlt_le_dec (ann_rank a) (ann_rank b)) as [H|H]; [|by left].
  right. by apply Qlt_le_weak.
Qed.

Lemma rank_desc_transitive : Transitive rank_desc.
Proof.
  intros a b c. unfold rank_desc. rewrite !Qle_bool_iff.
  intros Hab Hbc. by eapply Qle_trans.
Qed.

Lemma threads_queryset_sorted (usr brd : string) (db : DB) :
  StronglySorted rank_desc (threads_queryset usr brd db).
Proof.
  unfold threads_queryset.
  apply StronglySorted_merge_sort; [apply rank_desc_transitive|apply rank_desc_total].
Qed.

Lemma paginator_page_sorted {A} (R : relation A) (l page : list A)
    (per_page : nat) (number : Z) :
  StronglySorted R l → paginator_page l per_page number = Some page →
  StronglySorted R page.
Proof.
  intros Hl. unfold paginator_page. repeat case_decide; [done..|]. intros [= <-].
  set (k := ((Z.to_nat number - 1) * per_page)%nat).
  rewrite <- (take_drop k l) in Hl. apply StronglySorted_app_1_r in Hl.
  rewrite <- (take_drop per_page (drop k l)) in Hl.
  by apply StronglySorted_app_1_l in Hl.
Qed.

Lemma elem_of_board_threads (brd : string) (db : DB) (pk : Z) (p : Post) :
  (pk, p) ∈ board_threads brd db ↔
    posts db !! pk = Some p ∧ board p = brd ∧ thread p = None.
Proof.
  unfold board_threads. rewrite list_elem_of_filter, elem_of_map_to_list.
  simpl. tauto.
Qed.

Lemma elem_of_post_set (thread_id : Z) (db : DB) (pk : Z) (p : Post) :
  (pk, p) ∈ post_set thread_id db ↔
    posts db !! pk = Some p ∧ thread p = Some thread_id.
Proof.
  unfold post_set. rewrite list_elem_of_filter, elem_of_map_to_list.
  simpl. tauto.
Qed.

Lemma elem_of_stranded_threads (usr brd : string) (db : DB) (a : Annotated) :
  a ∈ stranded_threads usr brd db ↔
    a ∈ multi_annotate usr (board_threads brd db) db ∧
    session (ann_post a) ≠ usr ∧ (ann_rank a == 0)%Q.
Proof.
  unfold stranded_threads. rewrite list_elem_of_filter, Qeq_bool_iff. tauto.
Qed.

Section views_more.

Variable BL_PHT : DiGraph → Node → Node → Node → Q.

Lemma list_threads_known_board (settings : Settings) (req : Request)
    (brd : string) (pagenum now now' : Z) (db : DB) :
  brd ∈ boards db →
  let r := refresh_rank BL_PHT settings req now now' db in
  (list_threads BL_PHT settings req brd pagenum now now' db).1 =
    match paginator_page (threads_queryset (user r) brd (db_after r)) 10 pagenum with
    | None => Redirect
    | Some page =>
        RenderThreads
          ((λ t, (t, take 4 (replies_queryset (user r) (ann_pk t) (db_after r))))
             <$> page)
    end.
Proof.
  intros Hb r. unfold list_threads. rewrite decide_True by done.
  fold r. by destruct (paginator_page _ 10%nat pagenum).
Qed.

(** X9: a page that [list_threads] renders has at most 10 threads, in
    descending order of rank, each with at most 4 replies. *)
Theorem list_threads_page_shape (settings : Settings) (req : Request)
    (brd : string) (pagenum now now' : Z) (db : DB)
    (td : list (Annotated * list Annotated)) :
  (list_threads BL_PHT settings req brd pagenum now now' db).1 = RenderThreads td →
  StronglySorted rank_desc td.*1 ∧
  (length td ≤ 10)%nat ∧
  Forall (λ entry, length entry.2 ≤ 4)%nat td.
Proof.
  unfold list_threads. case_decide; [|done].
  destruct (paginator_page _ 10%nat pagenum) as [page|] eqn:Epage; [|done].
  cbn [fst]. intros [= <-].
  rewrite <- list_fmap_compose.
  replace (fst ∘ _ <$> page) with page by (by rewrite <- (list_fmap_id page) at 1).
  split_and!.
  - eapply paginator_page_sorted; [apply threads_queryset_sorted|done].
  - rewrite length_fmap.
    revert Epage. unfold paginator_page. repeat case_decide; [done..|].
    intros [= <-]. rewrite length_take. lia.
  - apply Forall_fmap, Forall_forall. intros t _. simpl. rewrite length_take. lia.
Qed.

(** X10: on an existing board, every thread that passes the list filter is
    rendered by exactly the page its position gives: the thread at position
    [i] of the ordered query set is entry [i mod 10] of page [i / 10 + 1].
    Page 1 is always rendered, and page numbers outside the range are
    answered with a redirect. *)
Theorem list_threads_paging (settings : Settings) (req : Request)
    (brd : string) (now now' : Z) (db : DB) :
  brd ∈ boards db →
  let r := refresh_rank BL_PHT settings req now now' db in
  let threads := threads_queryset (user r) brd (db_after r) in
  (∀ i t, threads !! i = Some t →
     ∃ td, (list_threads BL_PHT settings req brd (Z.of_nat (i / 10) + 1)
              now now' db).1 = RenderThreads td ∧
           td !! (i mod 10)%nat =
             Some (t, take 4 (replies_queryset (user r) (ann_pk t) (db_after r)))) ∧
  (∃ td, (list_threads BL_PHT settings req brd 1 now now' db).1 = RenderThreads td) ∧
  (∀ pagenum, pagenum < 1 ∨ Z.of_nat (num_pages threads 10) < pagenum →
     (list_threads BL_PHT settings req brd pagenum now now' db).1 = Redirect).
Proof.
  intros Hb r threads.
  pose proof (paginator_page_first threads 10%nat ltac:(lia)) as Hfirst.
  pose proof (paginator_page_invalid threads 10%nat) as Hbad.
  split_and!.
  - intros i t Ht.
    destruct (paginator_page_at threads 10%nat i t ltac:(lia) Ht)
      as (page & Hpage & Hpos).
    rewrite (list_threads_known_board settings req brd _ now now' db Hb).
    fold r threads. rewrite Hpage. eexists. split; [done|].
    by rewrite list_lookup_fmap, Hpos.
  - destruct Hfirst as [page Hpage].
    rewrite (list_threads_known_board settings req brd _ now now' db Hb).
    fold r threads. rewrite Hpage. by eexists.
  - intros pagenum Hout.
    rewrite (list_threads_known_board settings req brd _ now now' db Hb).
    fold r threads. by rewrite (Hbad pagenum Hout).
Qed.

(** X11: once the ranks have been recomputed in the same request, the
    thread page of an existing thread is always rendered: the thread of
    another author carries the score just computed and the viewer's vote,
    the viewer's own thread carries neither. *)
Theorem get_thread_after_recompute (settings : Settings) (req : Request)
    (thread_id : Z) (brd : string) (now now' : Z) (db : DB) (p : Post) :
  brd ∈ boards db → posts db !! thread_id = Some p →
  let r := refresh_rank BL_PHT settings req now now' db in
  path r = Recomputed →
  (get_thread BL_PHT settings req thread_id brd now now' db).1 =
    RenderThread
      (thread_id, p,
       if decide (user r = session p) then None
       else Some (BL_PHT (build_graph db) (Actor (user r)) (Actor (user r))
                    (Content thread_id),
                  from_option vote 0 (ratings db !! (user r, thread_id))))
      (replies_queryset (user r) thread_id (db_after r)).
Proof.
  intros Hb Hp r Hpath. unfold get_thread.
  rewrite decide_True by done. rewrite Hp. fold r.
  unfold single_annotate. cbn [fst snd].
  destruct (decide (user r = session p)) as [Heq|Hne].
  - by rewrite decide_False by (intros Hc; by apply Hc).
  - rewrite decide_True by done.
    pose proof (recomputed_row BL_PHT settings req now now' db thread_id p Hpath Hp)
      as Hrow.
    fold r in Hrow. by rewrite Hrow.
Qed.

(** X12: when the early return of [refresh_rank] is taken and the viewer has
    no [Rating] row for a thread that somebody else wrote, the thread page
    ends in [DoesNotExist], and the database is as it was. *)
Theorem get_thread_missing_row_raises (settings : Settings) (req : Request)
    (thread_id : Z) (brd : string) (now now' : Z) (db : DB)
    (usr : string) (t0 : Z) (p : Post) :
  session_key req = Some usr → usr ∈ sessions db →
  calctimes db !! usr = Some t0 → t0 + timedelta_hours 1 <= now →
  RANK_DEBUG settings = false →
  brd ∈ boards db → posts db !! thread_id = Some p →
  session p ≠ usr → ratings db !! (usr, thread_id) = None →
  get_thread BL_PHT settings req thread_id brd now now' db
    = (Raised DoesNotExist, db).
Proof.
  intros Hk Hin Hc Hold Hdebug Hb Hp Hauthor Hnone.
  destruct (refresh_rank_path BL_PHT settings req now now' db usr t0 Hk Hin Hc)
    as (Hu & Hpath & Hdb).
  assert (Hcached : path (refresh_rank BL_PHT settings req now now' db) = Cached)
    by (by apply Hpath).
  unfold get_thread. rewrite decide_True by done. rewrite Hp.
  rewrite (Hdb Hcached), Hu.
  unfold single_annotate. cbn [fst snd].
  rewrite decide_True by (by intros ->). by rewrite Hnone.
Qed.

End views_more.

Lemma list_threads_page_shape_witness :
  ∃ td, (list_threads half_everywhere no_debug (request_of "A" ∅) "b" 1 5 6
           sample_db).1 = RenderThreads td ∧
        StronglySorted rank_desc td.*1 ∧ (length td ≤ 10)%nat.
Proof.
  destruct (list_threads half_everywhere no_debug (request_of "A" ∅) "b" 1 5 6
              sample_db).1 as [| | |td|] eqn:E; try (by vm_compute in E).
  exists td. split; [reflexivity|].
  destruct (list_threads_page_shape half_everywhere no_debug (request_of "A" ∅)
              "b" 1 5 6 sample_db td E) as (Hs & Hl & _).
  by split.
Defined.

Lemma list_threads_paging_witness :
  (list_threads half_everywhere no_debug (request_of "A" ∅) "b" 2 5 6
     sample_db).1 = Redirect ∧
  ∃ td, (list_threads half_everywhere no_debug (request_of "A" ∅) "b" 1 5 6
           sample_db).1 = RenderThreads td.
Proof.
  destruct (list_threads_paging half_everywhere no_debug (request_of "A" ∅)
              "b" 5 6 sample_db) as (_ & Hfirst & Hout); [by vm_compute|].
  split; [|exact Hfirst].
  apply Hout. right. by vm_compute.
Defined.

Lemma get_thread_after_recompute_witness :
  (get_thread half_everywhere no_debug (request_of "A" ∅) 3 "b" 5 6 sample_db).1
    = RenderThread
        (3, {| session := "B"; thread := None; board := "b" |}, Some ((1 # 2)%Q, 0))
        [].
Proof.
  rewrite (get_thread_after_recompute half_everywhere no_debug (request_of "A" ∅)
             3 "b" 5 6 sample_db {| session := "B"; thread := None; board := "b" |});
    [by vm_compute | by vm_compute | reflexivity | by vm_compute].
Defined.

Lemma get_thread_missing_row_raises_witness :
  get_thread half_everywhere no_debug (request_of "A" ∅) 3 "b"
    (timedelta_hours 2) (timedelta_hours 2 + 1) sample_db
    = (Raised DoesNotExist, sample_db).
Proof.
  apply (get_thread_missing_row_raises half_everywhere no_debug (request_of "A" ∅)
           3 "b" (timedelta_hours 2) (timedelta_hours 2 + 1) sample_db "A" 0
           {| session := "B"; thread := None; board := "b" |});
    [reflexivity | by vm_compute | reflexivity | by vm_compute | reflexivity
    | by vm_compute | reflexivity | discriminate | reflexivity].
Defined.

(** ** Listing, discovery and the threads in between *)

Lemma annotate_in_multi_annotate (usr : string) (threads : list (Z * Post))
    (db : DB) (row : Z * Post) :
  row ∈ threads → annotate (ratings db) usr row ∈ multi_annotate usr threads db.
Proof. intros Hrow. apply elem_of_multi_annotate. by exists row. Qed.

(** X13: a thread of the board is shown by the thread list when it is the
    viewer's own or its rank is positive, and offered by the discovery view
    when it is another author's and its rank equals 0, never by both; a
    thread of another author with a negative rank, however close to 0, is
    shown by neither. *)
Theorem thread_list_or_discovery (usr brd : string) (db : DB) (a : Annotated) :
  a ∈ multi_annotate usr (board_threads brd db) db →
  (a ∈ threads_queryset usr brd db ↔
     session (ann_post a) = usr ∨ (0 < ann_rank a)%Q) ∧
  (a ∈ stranded_threads usr brd db ↔
     session (ann_post a) ≠ usr ∧ (ann_rank a == 0)%Q) ∧
  ¬ (a ∈ threads_queryset usr brd db ∧ a ∈ stranded_threads usr brd db) ∧
  (session (ann_post a) ≠ usr → (ann_rank a < 0)%Q →
     (a ∉ threads_queryset usr brd db) ∧ (a ∉ stranded_threads usr brd db)).
Proof.
  intros Hcand. rewrite elem_of_threads_queryset, elem_of_stranded_threads.
  split_and!.
  - tauto.
  - tauto.
  - intros [[_ [Hown|Hpos]] (_ & Hother & Hzero)]; [done|].
    rewrite Hzero in Hpos. by apply Qlt_irrefl in Hpos.
  - intros Hother Hneg. split.
    + intros [_ [Hown|Hpos]]; [done|].
      apply (Qlt_irrefl 0). by eapply Qlt_trans.
    + intros (_ & _ & Hzero). rewrite Hzero in Hneg. by apply Qlt_irrefl in Hneg.
Qed.

Lemma thread_list_or_discovery_witness :
  let hidden := annotate (ratings sample_db) "C"
                  (1, {| session := "A"; thread := None; board := "b" |}) in
  let stranded := annotate (ratings sample_db) "C"
                    (3, {| session := "B"; thread := None; board := "b" |}) in
  ((hidden ∉ threads_queryset "C" "b" sample_db) ∧
   (hidden ∉ stranded_threads "C" "b" sample_db)) ∧
  stranded ∈ stranded_threads "C" "b" sample_db.
Proof.
  intros hidden stranded. split.
  - destruct (thread_list_or_discovery "C" "b" sample_db hidden) as (_ & _ & _ & Hneg);
      [by_evaluation|].
    apply Hneg; [discriminate|by_evaluation].
  - destruct (thread_list_or_discovery "C" "b" sample_db stranded) as (_ & Hzero & _);
      [by_evaluation|].
    apply Hzero. split; [discriminate|reflexivity].
Defined.

(** X14: a post for which the viewer has no [Rating] row is annotated with
    rank 0, so: as a reply it is shown on the thread page; as a thread of
    another author it is left out of the thread list and offered by the
    discovery view; as the viewer's own thread it is on the thread list. *)
Theorem unrated_post_visibility (usr : string) (db : DB) (pk : Z) (p : Post) :
  posts db !! pk = Some p → ratings db !! (usr, pk) = None →
  let a := annotate (ratings db) usr (pk, p) in
  (∀ thread_id, thread p = Some thread_id → a ∈ replies_queryset usr thread_id db) ∧
  (thread p = None → session p ≠ usr →
     (a ∉ threads_queryset usr (board p) db) ∧ a ∈ stranded_threads usr (board p) db) ∧
  (thread p = None → session p = usr → a ∈ threads_queryset usr (board p) db).
Proof.
  intros Hp Hnone a.
  assert (Hrank : ann_rank a = 0%Q).
  { subst a. unfold annotate. cbn [ann_rank fst]. by rewrite Hnone. }
  split_and!.
  - intros thread_id Hthread. apply elem_of_replies_queryset. split.
    + apply annotate_in_multi_annotate. by apply elem_of_post_set.
    + rewrite Hrank. by_evaluation.
  - intros Hthread Hother.
    assert (Hcand : a ∈ multi_annotate usr (board_threads (board p) db) db).
    { apply annotate_in_multi_annotate. by apply elem_of_board_threads. }
    split.
    + rewrite elem_of_threads_queryset. intros [_ [Hown|Hpos]]; [done|].
      rewrite Hrank in Hpos. by apply Qlt_irrefl in Hpos.
    + apply elem_of_stranded_threads. split_and!; [done..|]. by rewrite Hrank.
  - intros Hthread Hown. apply elem_of_threads_queryset. split; [|by left].
    apply annotate_in_multi_annotate. by apply elem_of_board_threads.
Qed.

Lemma unrated_post_visibility_witness :
  annotate (ratings sample_db) "C"
    (4, {| session := "A"; thread := Some 1; board := "b" |})
    ∈ replies_queryset "C" 1 sample_db.
Proof.
  destruct (unrated_post_visibility "C" sample_db 4
              {| session := "A"; thread := Some 1; board := "b" |})
    as (Hreply & _); [reflexivity..|].
  by apply Hreply.
Defined.

Section discover_claims.

Variable BL_PHT : DiGraph → Node → Node → Node → Q.

(** X15: the discovery view of an existing board answers with status 204
    exactly when no thread of the board by another author has rank 0 for
    the viewer; otherwise it answers with exactly those threads. An unknown
    board is a 404 and nothing is computed or stored. *)
Theorem ajax_discover_new_threads_answer (settings : Settings) (req : Request)
    (brd : string) (now now' : Z) (db : DB) :
  let r := refresh_rank BL_PHT settings req now now' db in
  let answer := (ajax_discover_new_threads BL_PHT settings req brd now now' db).1 in
  (brd ∉ boards db →
     ajax_discover_new_threads BL_PHT settings req brd now now' db
       = (DiscoverNotFound, db)) ∧
  (brd ∈ boards db →
     (answer = NoContent ↔
        ∀ a, a ∈ multi_annotate (user r) (board_threads brd (db_after r)) (db_after r) →
             session (ann_post a) ≠ user r → ¬ (ann_rank a == 0)%Q) ∧
     (∀ threads, answer = Discovered threads →
        threads ≠ [] ∧
        ∀ a, a ∈ threads ↔
             a ∈ multi_annotate (user r) (board_threads brd (db_after r)) (db_after r) ∧
             session (ann_post a) ≠ user r ∧ (ann_rank a == 0)%Q) ∧
     answer ≠ DiscoverNotFound).
Proof.
  intros r answer. subst answer. unfold ajax_discover_new_threads. split.
  - intros Hb. by rewrite decide_False.
  - intros Hb. rewrite decide_True by done. fold r.
    pose proof (elem_of_stranded_threads (user r) brd (db_after r)) as Hin.
    destruct (stranded_threads (user r) brd (db_after r)) as [|t l] eqn:E;
      cbn [fst]; split_and!; try done.
    + split; [|done]. intros _ a Ha Hother Hzero.
      assert (Hnil : a ∈ @nil Annotated) by (apply Hin; done).
      by apply elem_of_nil in Hnil.
    + split; [done|]. intros Hnone. exfalso.
      assert (Ht : t ∈ t :: l) by apply list_elem_of_here.
      apply Hin in Ht as (Hcand & Hother & Hzero). by eapply Hnone.
    + intros threads [= <-]. split; [done|]. apply Hin.
Qed.

End discover_claims.

Lemma ajax_discover_new_threads_answer_witness :
  (ajax_discover_new_threads half_everywhere no_debug (request_of "A" ∅) "b" 5 6
     sample_db).1 = NoContent ∧
  (ajax_discover_new_threads half_everywhere no_debug (request_of "A" ∅) "zz" 5 6
     sample_db) = (DiscoverNotFound, sample_db).
Proof.
  destruct (ajax_discover_new_threads_answer half_everywhere no_debug
              (request_of "A" ∅) "zz" 5 6 sample_db) as [Hmissing _].
  split; [by vm_compute|].
  apply Hmissing. by_evaluation.
Defined.

(** ** More on the voting endpoint *)

(** Writing one [Rating] row changes one edge of the next graph. *)
Lemma build_graph_rating_written (db : DB) (u : string) (t : Z) (r : Rating)
    (e : Node * Node) :
  adj (build_graph (set_ratings (<[(u, t) := r]> (ratings db)) db)) !! e =
    if decide (e = (Actor u, Content t)) then Some (amplify (vote r))
    else adj (build_graph db) !! e.
Proof.
  unfold build_graph. cbn [posts ratings set_ratings].
  set (G0 := map_fold add_post_edges empty_graph (posts db)).
  destruct (rating_edges_weights G0 (<[(u, t) := r]> (ratings db))) as (_ & Hac' & Hc').
  destruct (rating_edges_weights G0 (ratings db)) as (_ & Hac & Hc).
  destruct e as [[a|t'] v].
  - destruct v as [b|t''].
    + rewrite !rating_edges_actor_actor. by rewrite decide_False.
    + rewrite Hac', Hac. destruct (decide ((u, t) = (a, t''))) as [[= -> ->]|Hne].
      * rewrite lookup_insert_eq. by rewrite decide_True.
      * rewrite lookup_insert_ne by done. rewrite decide_False by congruence. done.
  - rewrite Hc', Hc. by rewrite decide_False.
Qed.

(** X16: a request from a known session for an existing post whose vote
    parameter is empty or is refused by [int] records no vote (the answer is
    "Not allowed", or [ValueError] leaves the view), yet the viewer's row
    for the post has been stored by then: the old row, or a new one with
    vote 0 and rank 0, which the next graph reads as an edge of weight 0. *)
Theorem post_vote_rejected_writes_row (int_beyond_ascii : string → option Z)
    (req : Request) (db : DB) (usr : string)
    (target : Z) (p : Post) (post_param vote_param : string) :
  GET req !! "vote" = Some vote_param →
  GET req !! "post" = Some post_param →
  py_int int_beyond_ascii post_param = Some target →
  posts db !! target = Some p →
  session_key req = Some usr → usr ∈ sessions db →
  py_int int_beyond_ascii vote_param = None →
  let db' := (post_vote int_beyond_ascii req db).2 in
  (post_vote int_beyond_ascii req db).1 =
    (if decide (vote_param = "") then inr JsonNotAllowed else inl ValueError) ∧
  ratings db' !! (usr, target) =
    Some {| rank := from_option rank 0%Q (ratings db !! (usr, target));
            vote := from_option vote 0 (ratings db !! (usr, target)) |} ∧
  (∀ k, k ≠ (usr, target) → ratings db' !! k = ratings db !! k) ∧
  (ratings db !! (usr, target) = None →
     adj (build_graph db') !! (Actor usr, Content target) = Some 0).
Proof.
  intros Hv Hp Hpk Hpost Hk Hin Hn db'. subst db'. unfold post_vote.
  rewrite Hv, Hp, Hpk, Hpost, Hk. rewrite decide_True by done.
  unfold get_or_create.
  destruct (ratings db !! (usr, target)) as [[rk v]|] eqn:Erow; cbn -[py_int].
  - destruct (decide (vote_param = "")) as [->|Hne].
    + rewrite decide_False by (intros Hc; by apply Hc). cbn.
      by rewrite Erow.
    + rewrite decide_True by done. rewrite Hn. cbn. by rewrite Erow.
  - assert (Hedge : adj (build_graph (set_ratings
               (<[(usr, target) := {| rank := RATING_RANK_DEFAULT;
                                      vote := RATING_VOTE_DEFAULT |}]> (ratings db)) db))
               !! (Actor usr, Content target) = Some 0).
    { rewrite build_graph_rating_written. by rewrite decide_True. }
    destruct (decide (vote_param = "")) as [->|Hne].
    + rewrite decide_False by (intros Hc; by apply Hc). cbn [fst snd ratings set_ratings].
      split_and!; [done | by rewrite lookup_insert_eq | | done].
      intros k Hk'. by rewrite lookup_insert_ne.
    + rewrite decide_True by done. rewrite Hn. cbn [fst snd ratings set_ratings].
      split_and!; [done | by rewrite lookup_insert_eq | | done].
      intros k Hk'. by rewrite lookup_insert_ne.
Qed.

Lemma post_vote_rejected_writes_row_witness :
  (post_vote none_beyond_ascii (vote_request "C" "3" "") sample_db).1 = inr JsonNotAllowed ∧
  ratings (post_vote none_beyond_ascii (vote_request "C" "3" "up") sample_db).2 !! ("C", 3)
    = Some {| rank := 0%Q; vote := 0 |}.
Proof.
  split.
  - apply (post_vote_rejected_writes_row none_beyond_ascii (vote_request "C" "3" "") sample_db "C" 3
             {| session := "B"; thread := None; board := "b" |} "3" "");
      [reflexivity.. | by vm_compute | reflexivity].
  - apply (post_vote_rejected_writes_row none_beyond_ascii (vote_request "C" "3" "up") sample_db "C" 3
             {| session := "B"; thread := None; board := "b" |} "3" "up");
      [reflexivity.. | by vm_compute | reflexivity].
Defined.

(** X17: the view ends in [MultiValueDictKeyError] exactly when the vote or
    the post parameter is missing, and in [DoesNotExist] exactly when both
    are there, [int] reads the post parameter, and the post or the
    session of the request is not in the database; in both cases, and when
    [int] refuses the post parameter, nothing has been written. *)
Theorem post_vote_errors (int_beyond_ascii : string → option Z)
    (req : Request) (db : DB) :
  ((post_vote int_beyond_ascii req db).1 = inl MultiValueDictKeyError ↔
     GET req !! "vote" = None ∨ GET req !! "post" = None) ∧
  ((post_vote int_beyond_ascii req db).1 = inl DoesNotExist ↔
     ∃ vote_param post_param target,
       GET req !! "vote" = Some vote_param ∧ GET req !! "post" = Some post_param ∧
       py_int int_beyond_ascii post_param = Some target ∧
       (posts db !! target = None ∨ session_key req = None ∨
        ∃ k, session_key req = Some k ∧ k ∉ sessions db)) ∧
  (∀ e, (post_vote int_beyond_ascii req db).1 = inl e →
     e ≠ ValueError ∨ (∃ post_param, GET req !! "post" = Some post_param ∧
                                     py_int int_beyond_ascii post_param = None) →
     (post_vote int_beyond_ascii req db).2 = db).
Proof.
  unfold post_vote.
  destruct (GET req !! "vote") as [vote_param|].
  2:{ split_and!; [split; [auto|done] | | done].
      split; [done|]. by intros (? & ? & ? & [=] & _). }
  destruct (GET req !! "post") as [post_param|].
  2:{ split_and!; [split; [auto|done] | | done].
      split; [done|]. by intros (? & ? & ? & _ & [=] & _). }
  destruct (py_int int_beyond_ascii post_param) as [target|] eqn:Epk.
  2:{ split_and!; [split; [done|by intros [|]] | | done].
      split; [done|]. intros (? & ? & ? & _ & [= <-] & Hc & _). congruence. }
  destruct (posts db !! target) as [p|] eqn:Epost.
  2:{ split_and!; [split; [done|by intros [|]] | | done].
      split; [|done]. intros _. exists vote_param, post_param, target. auto. }
  destruct (session_key req) as [usr|] eqn:Ekey.
  2:{ split_and!; [split; [done|by intros [|]] | | done].
      split; [|done]. intros _. exists vote_param, post_param, target.
      split_and!; [done..|]. right. by left. }
  case_decide as Hin.
  2:{ split_and!; [split; [done|by intros [|]] | | done].
      split; [|done]. intros _. exists vote_param, post_param, target.
      split_and!; [done..|]. right. right. by exists usr. }
  assert (Hfound : ¬ ∃ vote_param0 post_param0 target0,
            Some vote_param = Some vote_param0 ∧ Some post_param = Some post_param0 ∧
            py_int int_beyond_ascii post_param0 = Some target0 ∧
            (posts db !! target0 = None ∨ Some usr = None ∨
             ∃ k, Some usr = Some k ∧ k ∉ sessions db)).
  { intros (v0 & ps0 & t0 & _ & [= <-] & Ht & Hbad).
    rewrite Epk in Ht. injection Ht as <-.
    destruct Hbad as [Hbad|[Hbad|(k & [= <-] & Hbad)]]; congruence. }
  destruct (get_or_create usr target (ratings db)) as [rating rs].
  case_decide.
  - destruct (py_int int_beyond_ascii vote_param) as [n|]; cbn [fst snd].
    + split_and!; [split; [done|by intros [|]] | split; [done|by intros ?] | done].
    + split_and!; [split; [done|by intros [|]] | split; [done|by intros ?] |].
      intros e [= <-] [Hne|(ps & [= <-] & Hnone)]; [done|congruence].
  - cbn [fst snd].
    split_and!; [split; [done|by intros [|]] | split; [done|by intros ?] | done].
Qed.

Lemma post_vote_errors_witness :
  post_vote none_beyond_ascii (vote_request "B" "77" "1") sample_db = (inl DoesNotExist, sample_db) ∧
  post_vote none_beyond_ascii (vote_request "Z" "1" "1") sample_db = (inl DoesNotExist, sample_db) ∧
  post_vote none_beyond_ascii (request_of "B" ∅) sample_db = (inl MultiValueDictKeyError, sample_db).
Proof.
  assert (Hgen : ∀ req e, (post_vote none_beyond_ascii req sample_db).1 = inl e → e ≠ ValueError →
            post_vote none_beyond_ascii req sample_db = (inl e, sample_db)).
  { intros req e He Hne.
    destruct (post_vote_errors none_beyond_ascii req sample_db) as (_ & _ & Hdb).
    rewrite (surjective_pairing (post_vote none_beyond_ascii req sample_db)).
    rewrite He, (Hdb e He); [done|by left]. }
  split_and!; apply Hgen; (reflexivity || discriminate).
Defined.

(** X18: a second vote of the same actor on the same post is accepted like
    the first (the view keeps no record of who has voted): two accepted
    requests in a row answer the old total plus both steps. An upvote
    followed by a downvote leaves the database exactly as it was when the
    row existed before. *)
Theorem post_vote_twice (int_beyond_ascii : string → option Z)
    (req1 req2 : Request) (db : DB) (usr : string)
    (target : Z) (p : Post) (post1 post2 vote1 vote2 : string) (n1 n2 : Z) :
  GET req1 !! "vote" = Some vote1 → GET req1 !! "post" = Some post1 →
  py_int int_beyond_ascii post1 = Some target → py_int int_beyond_ascii vote1 = Some n1 →
  session_key req1 = Some usr →
  GET req2 !! "vote" = Some vote2 → GET req2 !! "post" = Some post2 →
  py_int int_beyond_ascii post2 = Some target → py_int int_beyond_ascii vote2 = Some n2 →
  session_key req2 = Some usr →
  posts db !! target = Some p → usr ∈ sessions db →
  let old := from_option vote 0 (ratings db !! (usr, target)) in
  let db1 := (post_vote int_beyond_ascii req1 db).2 in
  (post_vote int_beyond_ascii req2 db1).1 = inr (JsonVote (old + vote_step n1 + vote_step n2)) ∧
  (n1 = 1 → n2 ≠ 1 → is_Some (ratings db !! (usr, target)) →
     (post_vote int_beyond_ascii req2 db1).2 = db).
Proof.
  intros Hv1 Hp1 Hpk1 Hn1 Hk1 Hv2 Hp2 Hpk2 Hn2 Hk2 Hpost Hin old db1.
  pose proof (post_vote_success int_beyond_ascii req1 db usr target p post1 vote1 n1
                Hv1 Hp1 Hpk1 Hpost Hk1 Hin Hn1) as H1.
  subst db1. rewrite H1. cbn [snd].
  set (r1 := {| rank := from_option rank RATING_RANK_DEFAULT (ratings db !! (usr, target));
                vote := from_option vote RATING_VOTE_DEFAULT (ratings db !! (usr, target))
                        + vote_step n1 |}).
  set (db1 := set_ratings (<[(usr, target) := r1]> (ratings db)) db).
  assert (Hpost1 : posts db1 !! target = Some p) by done.
  assert (Hin1 : usr ∈ sessions db1) by done.
  pose proof (post_vote_success int_beyond_ascii req2 db1 usr target p post2 vote2 n2
                Hv2 Hp2 Hpk2 Hpost1 Hk2 Hin1 Hn2) as H2.
  assert (Hrow : ratings db1 !! (usr, target) = Some r1) by apply lookup_insert_eq.
  rewrite Hrow in H2. cbn [from_option rank vote r1] in H2.
  rewrite H2. cbn [fst snd]. split; [done|].
  intros -> Hn2' [[rk v] Hr].
  subst db1 old. rewrite Hr in *. cbn [from_option rank vote] in *.
  unfold set_ratings. cbn [ratings sessions boards posts calctimes].
  destruct db as [ss bs ps rs cs]. cbn [ratings sessions boards posts calctimes] in *.
  f_equal. rewrite insert_insert_eq. apply insert_id. rewrite Hr. f_equal.
  unfold vote_step. rewrite decide_True by done. rewrite decide_False by done.
  f_equal. lia.
Qed.

Lemma post_vote_twice_witness :
  (post_vote none_beyond_ascii (vote_request "B" "1" "1")
     (post_vote none_beyond_ascii (vote_request "B" "1" "1") sample_db).2).1 = inr (JsonVote 7) ∧
  (post_vote none_beyond_ascii (vote_request "B" "1" "-1")
     (post_vote none_beyond_ascii (vote_request "B" "1" "1") sample_db).2).2 = sample_db.
Proof.
  split.
  - apply (post_vote_twice none_beyond_ascii (vote_request "B" "1" "1") (vote_request "B" "1" "1")
             sample_db "B" 1 {| session := "A"; thread := None; board := "b" |}
             "1" "1" "1" "1" 1 1); [reflexivity.. | by vm_compute].
  - apply (post_vote_twice none_beyond_ascii (vote_request "B" "1" "1") (vote_request "B" "1" "-1")
             sample_db "B" 1 {| session := "A"; thread := None; board := "b" |}
             "1" "1" "1" "-1" 1 (-1));
      [reflexivity.. | by vm_compute | reflexivity | lia | by eexists].
Defined.

(** X19: an accepted vote changes exactly one edge of the next graph: the
    edge from the voter to the post takes the amplified new total (also
    when it was the author's default edge), every other edge is as before. *)
Theorem post_vote_next_graph (int_beyond_ascii : string → option Z)
    (req : Request) (db : DB) (usr : string)
    (target : Z) (p : Post) (post_param vote_param : string) (n : Z)
    (e : Node * Node) :
  GET req !! "vote" = Some vote_param →
  GET req !! "post" = Some post_param →
  py_int int_beyond_ascii post_param = Some target →
  posts db !! target = Some p →
  session_key req = Some usr → usr ∈ sessions db →
  py_int int_beyond_ascii vote_param = Some n →
  let old := from_option vote 0 (ratings db !! (usr, target)) in
  adj (build_graph (post_vote int_beyond_ascii req db).2) !! e =
    if decide (e = (Actor usr, Content target))
    then Some (amplify (old + vote_step n))
    else adj (build_graph db) !! e.
Proof.
  intros Hv Hp Hpk Hpost Hk Hin Hn old.
  rewrite (post_vote_success int_beyond_ascii req db usr target p post_param vote_param n
             Hv Hp Hpk Hpost Hk Hin Hn).
  cbn [snd]. by rewrite build_graph_rating_written.
Qed.

Lemma post_vote_next_graph_witness :
  adj (build_graph (post_vote none_beyond_ascii (vote_request "A" "1" "-1") sample_db).2)
    !! (Actor "A", Content 1) = Some (-10) ∧
  adj (build_graph sample_db) !! (Actor "A", Content 1) = Some 1.
Proof.
  split; [|by vm_compute].
  rewrite (post_vote_next_graph none_beyond_ascii (vote_request "A" "1" "-1") sample_db "A" 1
             {| session := "A"; thread := None; board := "b" |} "1" "-1" (-1));
    [reflexivity | reflexivity.. | by vm_compute | reflexivity].
Defined.

(** ** The challenge code *)

Lemma four_digit_codes_read_back (int_beyond_ascii : string → option Z) :
  Forall (λ a, Forall (λ b, Forall (λ c, Forall (λ d,
    String.length (four_digit_code a b c d) = 4%nat ∧
    py_int int_beyond_ascii (four_digit_code a b c d) = Some (1000 * a + 100 * b + 10 * c + d))
    (seqZ 0 10)) (seqZ 0 10)) (seqZ 0 10)) (seqZ 0 10).
Proof. by_evaluation. Qed.

(** X21: when each of the four draws is a digit from 0 to 9, the challenge
    of [random_digit_challenge] has exactly four characters, reads as the
    number whose decimal digits are the draws in order, and the expected
    response is the challenge itself. *)
Theorem random_digit_challenge_code (int_beyond_ascii : string → option Z)
    (randint : nat → Z) :
  (∀ i, (i < 4)%nat → 0 <= randint i <= 9) →
  let challenge := (random_digit_challenge randint).1 in
  let response := (random_digit_challenge randint).2 in
  response = challenge ∧
  String.length challenge = 4%nat ∧
  py_int int_beyond_ascii challenge =
    Some (1000 * randint 0%nat + 100 * randint 1%nat + 10 * randint 2%nat
          + randint 3%nat).
Proof.
  intros Hdraws challenge response. split; [done|].
  assert (Hcode : challenge = four_digit_code (randint 0%nat) (randint 1%nat)
                                (randint 2%nat) (randint 3%nat)) by done.
  rewrite Hcode.
  pose proof (four_digit_codes_read_back int_beyond_ascii) as Hall.
  rewrite Forall_forall in Hall.
  specialize (Hall (randint 0%nat)). rewrite elem_of_seqZ in Hall.
  specialize (Hall ltac:(specialize (Hdraws 0%nat); lia)).
  rewrite Forall_forall in Hall.
  specialize (Hall (randint 1%nat)). rewrite elem_of_seqZ in Hall.
  specialize (Hall ltac:(specialize (Hdraws 1%nat); lia)).
  rewrite Forall_forall in Hall.
  specialize (Hall (randint 2%nat)). rewrite elem_of_seqZ in Hall.
  specialize (Hall ltac:(specialize (Hdraws 2%nat); lia)).
  rewrite Forall_forall in Hall.
  specialize (Hall (randint 3%nat)). rewrite elem_of_seqZ in Hall.
  exact (Hall ltac:(specialize (Hdraws 3%nat); lia)).
Qed.

Lemma random_digit_challenge_code_witness :
  random_digit_challenge (λ i, Z.of_nat i * 3) = ("0369"%string, "0369"%string) ∧
  py_int none_beyond_ascii (random_digit_challenge (λ i, Z.of_nat i * 3)).1 = Some 369.
Proof.
  split; [reflexivity|].
  apply (random_digit_challenge_code none_beyond_ascii (λ i, Z.of_nat i * 3)).
  intros i Hi. lia.
Defined.

(** ** What a recomputation may add, and what the lists never repeat *)

Section new_rows.

Variable BL_PHT : DiGraph → Node → Node → Node → Q.

(** X8: a [Rating] row that is there after [refresh_rank] and was not
    there before belongs to the viewer, was made on the recomputing path,
    and is for a post of the table or the target of some earlier row. *)
Theorem refresh_rank_new_rows (settings : Settings) (req : Request)
    (now now' : Z) (db : DB) (u : string) (t : Z) :
  let r := refresh_rank BL_PHT settings req now now' db in
  ratings db !! (u, t) = None → is_Some (ratings (db_after r) !! (u, t)) →
  u = user r ∧ path r = Recomputed ∧
  (is_Some (posts db !! t) ∨ ∃ u', is_Some (ratings db !! (u', t))).
Proof.
  intros r Hnone Hsome.
  pose proof (refresh_rank_tables BL_PHT settings req now now' db) as (_ & _ & Hcase).
  fold r in Hcase. destruct (path r).
  - rewrite Hcase, Hnone in Hsome. by destruct Hsome.
  - destruct Hcase as [Hrs _]. rewrite Hrs, persist_rank_lookup in Hsome.
    case_decide as Hu; [|rewrite Hnone in Hsome; by destruct Hsome].
    split_and!; [done..|].
    rewrite calc_rep_lookup in Hsome.
    case_decide as Hnode; [|rewrite Hnone in Hsome; by destruct Hsome].
    destruct Hnode as [Hnode _]. apply build_graph_nodes_iff in Hnode.
    destruct Hnode as [(pk & p & Hp & [Heq|Heq])|(u' & t' & r' & Hr & [Heq|Heq])];
      try discriminate Heq; injection Heq as ->.
    + left. by eexists.
    + right. exists u'. by eexists.
Qed.

End new_rows.

Lemma refresh_rank_new_rows_witness :
  let r := refresh_rank half_everywhere no_debug (request_of "A" ∅) 5 6 sample_db in
  is_Some (ratings (db_after r) !! ("A", 3)) ∧ path r = Recomputed.
Proof.
  intros r.
  assert (Hsome : is_Some (ratings (db_after r) !! ("A", 3)))
    by (subst r; by_evaluation).
  split; [exact Hsome|].
  by destruct (refresh_rank_new_rows half_everywhere no_debug (request_of "A" ∅)
                 5 6 sample_db "A" 3 eq_refl Hsome) as (_ & Hpath & _).
Defined.

Lemma NoDup_fmap_filter {A B} (f : A → B) (P : A → Prop)
    `{∀ x, Decision (P x)} (l : list A) :
  NoDup (f <$> l) → NoDup (f <$> filter P l).
Proof.
  induction l as [|x l IH]; [done|]. rewrite fmap_cons, NoDup_cons.
  intros [Hx Hl]. rewrite filter_cons. case_decide; [|by apply IH].
  rewrite fmap_cons, NoDup_cons. split; [|by apply IH].
  intros (y & Hy & Hin)%list_elem_of_fmap. apply Hx.
  apply list_elem_of_fmap. exists y. split; [done|].
  by apply list_elem_of_filter in Hin as [_ ?].
Qed.

Lemma multi_annotate_pks (usr : string) (threads : list (Z * Post)) (db : DB) :
  ann_pk <$> multi_annotate usr threads db = threads.*1.
Proof.
  unfold multi_annotate. rewrite <- list_fmap_compose. done.
Qed.

(** X22: none of the three query sets has a post twice: the thread list,
    the replies of a thread page, and the threads of the discovery view
    each show a post at most once. *)
Theorem listings_no_duplicates (usr brd : string) (thread_id : Z) (db : DB) :
  NoDup (ann_pk <$> threads_queryset usr brd db) ∧
  NoDup (ann_pk <$> replies_queryset usr thread_id db) ∧
  NoDup (ann_pk <$> stranded_threads usr brd db).
Proof.
  assert (Hthreads : NoDup (board_threads brd db).*1).
  { unfold board_threads. apply NoDup_fmap_filter, NoDup_fst_map_to_list. }
  assert (Hposts : NoDup (post_set thread_id db).*1).
  { unfold post_set. apply NoDup_fmap_filter, NoDup_fst_map_to_list. }
  split_and!.
  - unfold threads_queryset. rewrite merge_sort_Permutation.
    apply NoDup_fmap_filter. by rewrite multi_annotate_pks.
  - unfold replies_queryset. apply NoDup_fmap_filter. by rewrite multi_annotate_pks.
  - unfold stranded_threads. apply NoDup_fmap_filter. by rewrite multi_annotate_pks.
Qed.

(** ** Weights and votes *)

(** X23: the weights of two vote edges are ordered as the votes are, and a
    weight has the sign of its vote: zero for a vote of 0, negative exactly
    for a negative vote. *)
Theorem vote_edges_ordered (db : DB) (u1 u2 : string) (t1 t2 : Z) (r1 r2 : Rating) :
  ratings db !! (u1, t1) = Some r1 → ratings db !! (u2, t2) = Some r2 →
  ∃ w1 w2,
    adj (build_graph db) !! (Actor u1, Content t1) = Some w1 ∧
    adj (build_graph db) !! (Actor u2, Content t2) = Some w2 ∧
    (vote r1 < vote r2 → w1 < w2) ∧
    (w1 < 0 ↔ vote r1 < 0) ∧ (w1 = 0 ↔ vote r1 = 0).
Proof.
  intros H1 H2. unfold build_graph.
  destruct (rating_edges_weights
              (map_fold add_post_edges empty_graph (posts db)) (ratings db))
    as (_ & He & _).
  exists (amplify (vote r1)), (amplify (vote r2)).
  rewrite !He, H1, H2. split_and!; [done..| | |];
    unfold amplify, NEGATIVE_VOTE_AMPLIFICATION_COEFFICIENT;
    repeat case_decide; lia.
Qed.

Lemma vote_edges_ordered_witness :
  ∃ w1 w2,
    adj (build_graph sample_db) !! (Actor "C", Content 2) = Some w1 ∧
    adj (build_graph sample_db) !! (Actor "C", Content 1) = Some w2 ∧
    w1 < w2 ∧ w1 < 0.
Proof.
  destruct (vote_edges_ordered sample_db "C" "C" 2 1
              {| rank := 0%Q; vote := -5 |} {| rank := (-1 # 4)%Q; vote := -2 |}
              eq_refl eq_refl) as (w1 & w2 & H1 & H2 & Hlt & Hneg & _).
  exists w1, w2. split_and!; [exact H1 | exact H2 | |].
  - apply Hlt. simpl. lia.
  - apply Hneg. simpl. lia.
Defined.

(** ** Blanks around an integer *)

Lemma rstrip_app_space (s : string) (c : ascii) :
  is_space c = true → rstrip (s +:+ String c "") = rstrip s.
Proof.
  intros Hc. induction s as [|c' s IH].
  - change ("" +:+ String c "") with (String c "").
    cbn [rstrip]. by rewrite Hc.
  - change (String c' s +:+ String c "") with (String c' (s +:+ String c "")).
    cbn [rstrip]. by rewrite IH.
Qed.

Lemma strip_app_space (s : string) (c : ascii) :
  is_space c = true →
  rstrip (lstrip (s +:+ String c "")) = rstrip (lstrip s).
Proof.
  intros Hc. induction s as [|c' s IH].
  - change ("" +:+ String c "") with (String c "").
    cbn [lstrip]. by rewrite Hc.
  - change (String c' s +:+ String c "") with (String c' (s +:+ String c "")).
    cbn [lstrip]. destruct (is_space c'); [exact IH|].
    apply (rstrip_app_space (String c' s) c Hc).
Qed.

Lemma is_space_ascii (c : ascii) :
  is_space c = true → (nat_of_ascii c <? 128)%nat = true.
Proof. by destruct c as [[] [] [] [] [] [] [] []]. Qed.

Lemma is_ascii_app_char (s : string) (c : ascii) :
  is_ascii (s +:+ String c "") = is_ascii s && (nat_of_ascii c <? 128)%nat.
Proof.
  induction s as [|c' s IH].
  - change ("" +:+ String c "") with (String c "").
    cbn [is_ascii]. by rewrite andb_true_r.
  - change (String c' s +:+ String c "") with (String c' (s +:+ String c "")).
    cbn [is_ascii]. by rewrite IH, andb_assoc.
Qed.

Lemma py_int_blanks (int_beyond_ascii : string → option Z)
    (s : string) (c : ascii) :
  is_space c = true → is_ascii s = true →
  py_int int_beyond_ascii (String c s) = py_int int_beyond_ascii s ∧
  py_int int_beyond_ascii (s +:+ String c "") = py_int int_beyond_ascii s.
Proof.
  intros Hc Hs. pose proof (is_space_ascii c Hc) as Hlow.
  unfold py_int. rewrite is_ascii_app_char. cbn [is_ascii].
  rewrite Hs, Hlow. cbn [andb]. unfold ascii_int. split.
  - cbn [lstrip]. by rewrite Hc.
  - by rewrite strip_app_space.
Qed.

Lemma post_vote_same_reading (int_beyond_ascii : string → option Z)
    (req : Request) (db : DB) (v1 v2 : string) :
  v1 ≠ ""%string → v2 ≠ ""%string → py_int int_beyond_ascii v1 = py_int int_beyond_ascii v2 →
  post_vote int_beyond_ascii (with_vote req v1) db = post_vote int_beyond_ascii (with_vote req v2) db.
Proof.
  intros H1 H2 Hpy. unfold post_vote, with_vote. cbn [GET session_key].
  rewrite !lookup_insert_eq. rewrite !lookup_insert_ne by done.
  destruct (GET req !! "post") as [post_param|]; [|done].
  destruct (py_int int_beyond_ascii post_param) as [target|]; [|done].
  destruct (posts db !! target); [|done].
  destruct (session_key req) as [usr|]; [|done].
  case_decide; [|done].
  destruct (get_or_create usr target (ratings db)) as [rating rs].
  rewrite !decide_True by done. by rewrite Hpy.
Qed.

(** X20: a non-empty ASCII vote parameter with a blank (space, tab, line
    feed, vertical tab, form feed or carriage return) before it or after
    it is handled exactly as the parameter without the blank: same answer,
    same database. *)
Theorem post_vote_blank_vote (int_beyond_ascii : string → option Z)
    (req : Request) (db : DB) (s : string) (c : ascii) :
  is_space c = true → is_ascii s = true → s ≠ ""%string →
  post_vote int_beyond_ascii (with_vote req (String c s)) db
    = post_vote int_beyond_ascii (with_vote req s) db ∧
  post_vote int_beyond_ascii (with_vote req (s +:+ String c "")) db
    = post_vote int_beyond_ascii (with_vote req s) db.
Proof.
  intros Hc Hascii Hs.
  destruct (py_int_blanks int_beyond_ascii s c Hc Hascii) as [Hlead Htrail]. split.
  - by apply post_vote_same_reading.
  - apply post_vote_same_reading; [|done..]. by destruct s.
Qed.

Lemma post_vote_blank_vote_witness :
  post_vote none_beyond_ascii (with_vote (vote_request "B" "1" "x") " 1") sample_db
    = post_vote none_beyond_ascii (with_vote (vote_request "B" "1" "x") "1") sample_db ∧
  (post_vote none_beyond_ascii (with_vote (vote_request "B" "1" "x") " 1") sample_db).1
    = inr (JsonVote 6).
Proof.
  destruct (post_vote_blank_vote none_beyond_ascii (vote_request "B" "1" "x")
              sample_db "1" " ")
    as [Hlead _]; [reflexivity | reflexivity | discriminate |].
  split; [exact Hlead|]. rewrite Hlead. reflexivity.
Defined.
